(** * Azure DevOps connector: a shallow embedding and its properties

    Source: [backend/onyx/connectors/azure_devops/connector.py].

    The connector is a thin adapter around two external collaborators, the
    Azure DevOps SDK (connection provider and work-item-tracking client) and
    the Python standard library ([datetime], [str], [range], slices).  The
    SDK is an oracle: a record of functions whose calls are logged in a trace
    and which may fail.  The standard-library operations the connector uses
    are written out as executable functions, except [datetime.fromisoformat]
    and the clock behind [datetime.utcnow], which are parameters. *)

From Stdlib Require Import ZArith String Ascii List DecimalString Lia.
From Stdlib Require DecimalZ DecimalPos.
From stdpp Require Import gmap strings list.

Set Warnings "-register-all".

(** ** Python values *)

Module Py.

(** A [datetime] object.  [tzinfo] is [None] for a naive value and
    [Some off] for an aware one, [off] being the UTC offset in seconds;
    [timezone.utc] is offset [0]. *)
Record datetime := mk_datetime {
  year : Z; month : Z; day : Z;
  hour : Z; minute : Z; second : Z; microsecond : Z;
  tzinfo : option Z
}.

Definition utc : Z := 0.

(** Values of type [Any] as they occur in credential bundles and in the
    field mapping of a work item. *)
Inductive value :=
| None_
| Bool (b : bool)
| Int (n : Z)
| Str (s : string)
| Datetime (d : datetime)
| List (l : list value)
| Dict (m : gmap string value).

(** Truth value testing ([if x:], [x or y]). *)
Definition truthy (v : value) : bool :=
  match v with
  | None_ => false
  | Bool b => b
  | Int n => negb (n =? 0)%Z
  | Str s => match s with EmptyString => false | String _ _ => true end
  | Datetime _ => true
  | List l => match l with [] => false | _ :: _ => true end
  | Dict m => negb (bool_decide (m = ∅))
  end.

(** [d.get(key)]: [None] when the key is absent. *)
Definition dict_get (d : gmap string value) (key : string) : value :=
  match d !! key with
  | Some v => v
  | None => None_
  end.

(** [d.get(key, default)]. *)
Definition dict_get_default (d : gmap string value) (key : string)
    (default : value) : value :=
  match d !! key with
  | Some v => v
  | None => default
  end.

(** [str(n)] for an [int]. *)
Definition str_int (n : Z) : string :=
  NilZero.string_of_int (Z.to_int n).

(** [s.rstrip("Z")]: every trailing ["Z"] is removed, not only one. *)
Fixpoint rstrip (c : ascii) (s : string) : string :=
  match s with
  | EmptyString => EmptyString
  | String a s' =>
      match rstrip c s' with
      | EmptyString => if Ascii.eqb a c then EmptyString else String a EmptyString
      | r => String a r
      end
  end.

(** Zero padding on the left up to [width] characters. *)
Fixpoint zfill (fuel : nat) (s : string) : string :=
  match fuel with
  | O => s
  | S k => String "0" (zfill k s)
  end.

(** ["%0<width>d" % n]. *)
Definition fmt_d (width : nat) (n : Z) : string :=
  if (n <? 0)%Z then
    let digits := str_int (Z.abs n) in
    String "-" (zfill (pred width - String.length digits) digits)
  else
    let digits := str_int n in
    zfill (width - String.length digits) digits.

(** The offset suffix of [isoformat]: [+HH:MM], with [:SS] when the offset
    has a seconds part. *)
Definition format_offset (off : Z) : string :=
  let sign := if (off <? 0)%Z then "-" else "+" in
  let a := Z.abs off in
  let hh := (a / 3600)%Z in
  let mm := ((a mod 3600) / 60)%Z in
  let ss := (a mod 60)%Z in
  sign +:+ fmt_d 2 hh +:+ ":" +:+ fmt_d 2 mm +:+
  (if (ss =? 0)%Z then "" else ":" +:+ fmt_d 2 ss).

(** [d.isoformat()] with the default separator and [timespec='auto']. *)
Definition isoformat (d : datetime) : string :=
  fmt_d 4 (year d) +:+ "-" +:+ fmt_d 2 (month d) +:+ "-" +:+ fmt_d 2 (day d) +:+
  "T" +:+ fmt_d 2 (hour d) +:+ ":" +:+ fmt_d 2 (minute d) +:+ ":" +:+
  fmt_d 2 (second d) +:+
  (if (microsecond d =? 0)%Z then "" else "." +:+ fmt_d 6 (microsecond d)) +:+
  match tzinfo d with
  | Some off => format_offset off
  | None => ""
  end.

(** [d.replace(tzinfo=tz)]: the offset is attached, the wall-clock fields are
    kept as they are (no conversion). *)
Definition replace_tzinfo (d : datetime) (tz : Z) : datetime :=
  {| year := year d; month := month d; day := day d;
     hour := hour d; minute := minute d; second := second d;
     microsecond := microsecond d; tzinfo := Some tz |}.

(** Proleptic Gregorian date of a day count relative to 1970-01-01. *)
Definition civil_from_days (days : Z) : Z * Z * Z :=
  let z := (days + 719468)%Z in
  let era := (z / 146097)%Z in
  let doe := (z - era * 146097)%Z in
  let yoe := ((doe - doe / 1460 + doe / 36524 - doe / 146096) / 365)%Z in
  let doy := (doe - (365 * yoe + yoe / 4 - yoe / 100))%Z in
  let mp := ((5 * doy + 2) / 153)%Z in
  let d := (doy - (153 * mp + 2) / 5 + 1)%Z in
  let m := if (mp <? 10)%Z then (mp + 3)%Z else (mp - 9)%Z in
  let y := (yoe + era * 400 + (if (m <=? 2)%Z then 1 else 0))%Z in
  (y, m, d).

(** [datetime.fromtimestamp(t, tz=timezone.utc)] for a whole number of
    seconds [t].  [None] stands for the error Python raises when the year
    leaves [MINYEAR..MAXYEAR]: [ValueError] just outside, [OverflowError] or
    [OSError] further out. *)
Definition fromtimestamp_utc (t : Z) : option datetime :=
  let days := (t / 86400)%Z in
  let rem := (t mod 86400)%Z in
  let '(y, m, d) := civil_from_days days in
  if ((1 <=? y) && (y <=? 9999))%Z then
    Some {| year := y; month := m; day := d;
            hour := (rem / 3600)%Z; minute := ((rem mod 3600) / 60)%Z;
            second := (rem mod 60)%Z; microsecond := 0; tzinfo := Some utc |}
  else None.

(** [range(start, stop, step)] for a positive or negative [step], as a list;
    [fuel] bounds the number of elements. *)
Fixpoint range_from (fuel : nat) (i stop step : Z) : list Z :=
  match fuel with
  | O => []
  | S k =>
      if (if (0 <? step)%Z then (i <? stop)%Z else (stop <? i)%Z)
      then i :: range_from k (i + step)%Z stop step
      else []
  end.

(** [range(start, stop, step)]; a zero step raises [ValueError] ([None]). *)
Definition range (start stop step : Z) : option (list Z) :=
  if (step =? 0)%Z then None
  else Some (range_from (Z.to_nat (Z.abs (stop - start))) start stop step).

(** Index normalisation of a slice bound against a sequence of length [len]. *)
Definition slice_index (len k : Z) : Z :=
  if (k <? 0)%Z then Z.max 0 (k + len) else Z.min k len.

(** [l[lo:hi]]. *)
Definition slice {A} (l : list A) (lo hi : Z) : list A :=
  let len := Z.of_nat (length l) in
  let lo' := slice_index len lo in
  let hi' := slice_index len hi in
  take (Z.to_nat (hi' - lo')) (drop (Z.to_nat lo') l).

End Py.

(** ** External collaborators *)

Module Sdk.

(** An error raised inside the SDK (network failure, HTTP error, ...).  The
    connector never catches it. *)
Definition error := string.

(** [WorkItemReference]: an element of [result.work_items]. *)
Record WorkItemReference := { ref_id : Z }.

(** [WorkItemQueryResult]; [work_items] may be [None]. *)
Record WorkItemQueryResult := {
  work_items : option (list WorkItemReference)
}.

(** [WorkItem] as returned with [expand="Fields"]; [fields] may be [None]. *)
Record WorkItem := {
  id : Z;
  url : option string;
  fields : option (gmap string Py.value)
}.

(** [WorkItemTrackingClient], the two methods the connector calls.  Each
    answers with an SDK error or a result. *)
Record WorkItemTrackingClient := {
  query_by_wiql : string → error + WorkItemQueryResult;
  get_work_items : list Z → string → string → error + list WorkItem
}.

(** A call that leaves the process. *)
Inductive call :=
| Connect (base_url username password : string)
| QueryByWiql (query : string)
| GetWorkItems (ids : list Z) (project expand : string).

End Sdk.

(** ** The host framework's models *)

Module Models.

(** Modelled from the spec: [DocumentSource] of [onyx.configs.constants],
    of which the connector uses the one fixed tag. *)
Inductive DocumentSource := AZURE_DEVOPS.

(** Modelled from the spec: [TextSection] of [onyx.connectors.models], a
    link and text pair. *)
Record TextSection := { link : option string; text : Py.value }.

(** Modelled from the spec: [BasicExpertInfo] of [onyx.connectors.models],
    of which the connector sets the display name. *)
Record BasicExpertInfo := { display_name : Py.value }.

(** Modelled from the spec: [Document] of [onyx.connectors.models], a plain
    record of the constructor's keyword arguments. *)
Record Document := {
  doc_id : string;
  sections : list TextSection;
  source : DocumentSource;
  semantic_identifier : Py.value;
  doc_updated_at : Py.datetime;
  primary_owners : list BasicExpertInfo;
  metadata : gmap string Py.value
}.

End Models.

(** ** Exceptions, the world and the effect monad *)

(** [TimestampError] is the error [datetime.fromtimestamp] raises for a
    bound it does not convert: [ValueError], [OverflowError] or [OSError],
    depending on how far out of range the bound lies and on the platform.
    The connector does not catch it and nothing here tells these apart. *)
Inductive exn :=
| ConnectorMissingCredentialError (msg : string)
| ValueError
| TimestampError
| SdkError (e : Sdk.error).

(** What the connector can observe of and do to its environment: the calls
    made so far, oldest first, and how often the clock has been read. *)
Record World := { calls : list Sdk.call; clock_reads : nat }.

Definition M (A : Type) : Type := World → (exn + A) * World.

Definition ret {A} (a : A) : M A := λ w, (inr a, w).

Definition bind {A B} (m : M A) (k : A → M B) : M B :=
  λ w, match m w with
       | (inl e, w') => (inl e, w')
       | (inr a, w') => k a w'
       end.

Notation "'let*' x := m 'in' k" := (bind m (λ x, k))
  (at level 10, x name, m at level 100, k at level 200).

(** An SDK call: logged, then answered by the oracle. *)
Definition sdk_call {A} (c : Sdk.call) (answer : Sdk.error + A) : M A :=
  λ w, let w' := {| calls := calls w ++ [c]; clock_reads := clock_reads w |} in
       match answer with
       | inl e => (inl (SdkError e), w')
       | inr a => (inr a, w')
       end.

(** [for x in xs: ys.append(f(x))]. *)
Fixpoint mapM {A B} (f : A → M B) (xs : list A) : M (list B) :=
  match xs with
  | [] => ret []
  | x :: xs' =>
      let* y := f x in
      let* ys := mapM f xs' in
      ret (y :: ys)
  end.

(** A generator function is modelled by what the consumer that drains it
    sees: the batches yielded, the exception that ended the iteration if one
    did, and the world left behind.  The generator object itself is the
    function still waiting for the world: nothing of the body, the check of
    the client included, runs before the first item is asked for. *)
Record Generated (A : Type) := {
  yielded : list A;
  raised : option exn;
  world : World
}.
Arguments yielded {A} _.
Arguments raised {A} _.
Arguments world {A} _.

Definition gen_raise {A} (e : exn) (w : World) : Generated A :=
  {| yielded := []; raised := Some e; world := w |}.

Definition gen_return {A} (w : World) : Generated A :=
  {| yielded := []; raised := None; world := w |}.

(** [yield a], then the rest of the generator. *)
Definition gen_yield {A} (a : A) (rest : Generated A) : Generated A :=
  {| yielded := a :: yielded rest; raised := raised rest; world := world rest |}.

(** ** The connector *)

(** [class AzureDevopsConnector]: the instance attributes.  [client] is
    [None] until credentials have been loaded. *)
Record AzureDevopsConnector := {
  organization : string;
  project : string;
  batch_size : Z;
  client : option Sdk.WorkItemTrackingClient
}.

(** [__init__]; the default of [batch_size], [INDEX_BATCH_SIZE], is host
    configuration and is passed by the caller here. *)
Definition __init__ (organization project : string) (batch_size : Z)
    : AzureDevopsConnector :=
  {| organization := organization; project := project;
     batch_size := batch_size; client := None |}.

Definition set_client (self : AzureDevopsConnector)
    (c : Sdk.WorkItemTrackingClient) : AzureDevopsConnector :=
  {| organization := organization self; project := project self;
     batch_size := batch_size self; client := Some c |}.

(** Lines 50-55 of [_fetch_work_items]: the WIQL text.  A [datetime] is
    always true, so [if start:] tests for [None] only. *)
Definition wiql_query (project : string) (start end_ : option Py.datetime)
    : string :=
  let query :=
    "SELECT [System.Id] FROM WorkItems WHERE [System.TeamProject]='"
      +:+ project +:+ "'" in
  let query :=
    match start with
    | Some start =>
        query +:+ " AND [System.ChangedDate] >= '" +:+ Py.isoformat start +:+ "'"
    | None => query
    end in
  let query :=
    match end_ with
    | Some end_ =>
        query +:+ " AND [System.ChangedDate] <= '" +:+ Py.isoformat end_ +:+ "'"
    | None => query
    end in
  query +:+ " ORDER BY [System.ChangedDate] ASC".

(** [item.fields or {}]. *)
Definition fields_or_empty (fields : option (gmap string Py.value))
    : gmap string Py.value :=
  match fields with
  | Some m => if Py.truthy (Py.Dict m) then m else ∅
  | None => ∅
  end.

(** [[wi.id for wi in result.work_items] if result.work_items else []]. *)
Definition result_ids (result : Sdk.WorkItemQueryResult) : list Z :=
  match Sdk.work_items result with
  | Some ((_ :: _) as refs) => map Sdk.ref_id refs
  | Some [] => []
  | None => []
  end.

Section Connector.

(** [Connection(base_url=..., creds=BasicAuthentication(user, password))
    .clients.get_work_item_tracking_client()]. *)
Variable connection :
  string → string → string → Sdk.error + Sdk.WorkItemTrackingClient.

(** [datetime.fromisoformat]; [None] when it raises. *)
Variable fromisoformat : string → option Py.datetime.

(** The value of the [n]-th reading of the clock. *)
Variable clock : nat → Py.datetime.

(** [datetime.utcnow()]. *)
Definition utcnow : M Py.datetime :=
  λ w, (inr (clock (clock_reads w)),
        {| calls := calls w; clock_reads := S (clock_reads w) |}).

(** [load_credentials]: the outcome, the connector afterwards and the world
    afterwards. *)
Definition load_credentials (self : AzureDevopsConnector)
    (credentials : gmap string Py.value) (w : World)
    : (exn + Py.value) * AzureDevopsConnector * World :=
  let pat := Py.dict_get credentials "azure_devops_pat" in
  match pat with
  | Py.Str pat =>
      let base_url := "https://dev.azure.com/" +:+ organization self in
      match sdk_call (Sdk.Connect base_url "" pat)
                     (connection base_url "" pat) w with
      | (inl e, w') => (inl e, self, w')
      | (inr c, w') => (inr Py.None_, set_client self c, w')
      end
  | _ =>
      (inl (ConnectorMissingCredentialError "Azure DevOps PAT missing or invalid"),
       self, w)
  end.

(** Lines 64-74: the update timestamp of an item. *)
Definition updated_at_of (fields : gmap string Py.value) : M Py.datetime :=
  let updated_at := Py.dict_get fields "System.ChangedDate" in
  let* updated_at_dt :=
    match updated_at with
    | Py.Str s =>
        match fromisoformat (Py.rstrip "Z" s) with
        | Some d => ret d
        | None => utcnow
        end
    | Py.Datetime d => ret d
    | _ => utcnow
    end in
  ret (Py.replace_tzinfo updated_at_dt Py.utc).

(** Lines 63-88: the body of the inner loop, one item to one document. *)
Definition make_document (item : Sdk.WorkItem) : M Models.Document :=
  let fields := fields_or_empty (Sdk.fields item) in
  let* updated_at_dt := updated_at_of fields in
  ret {| Models.doc_id := Py.str_int (Sdk.id item);
         Models.sections :=
           [ {| Models.link := Sdk.url item;
                Models.text :=
                  Py.dict_get_default fields "System.Description" (Py.Str "") |} ];
         Models.source := Models.AZURE_DEVOPS;
         Models.semantic_identifier :=
           Py.dict_get_default fields "System.Title"
             (Py.Str ("Work Item " +:+ Py.str_int (Sdk.id item)));
         Models.doc_updated_at := updated_at_dt;
         Models.primary_owners :=
           if Py.truthy (Py.dict_get fields "System.AssignedTo")
           then [ {| Models.display_name :=
                       Py.dict_get fields "System.AssignedTo" |} ]
           else [];
         Models.metadata := {[ "state" := Py.dict_get fields "System.State" ]} |}.

(** Lines 58-90: the outer loop over the start indices of the batches. *)
Fixpoint fetch_batches (self : AzureDevopsConnector)
    (c : Sdk.WorkItemTrackingClient) (ids : list Z) (starts : list Z)
    (w : World) : Generated (list Models.Document) :=
  match starts with
  | [] => gen_return w
  | i :: starts' =>
      let batch_ids := Py.slice ids i (i + batch_size self) in
      let fetch :=
        let* items :=
          sdk_call (Sdk.GetWorkItems batch_ids (project self) "Fields")
                   (Sdk.get_work_items c batch_ids (project self) "Fields") in
        mapM make_document items in
      match fetch w with
      | (inl e, w') => gen_raise e w'
      | (inr docs, w') =>
          match docs with
          | [] => fetch_batches self c ids starts' w'
          | _ :: _ => gen_yield docs (fetch_batches self c ids starts' w')
          end
      end
  end.

(** [_fetch_work_items], drained by its consumer. *)
Definition _fetch_work_items (self : AzureDevopsConnector)
    (start end_ : option Py.datetime) (w : World)
    : Generated (list Models.Document) :=
  match client self with
  | None => gen_raise (ConnectorMissingCredentialError "Azure DevOps") w
  | Some c =>
      let query := wiql_query (project self) start end_ in
      match sdk_call (Sdk.QueryByWiql query) (Sdk.query_by_wiql c query) w with
      | (inl e, w') => gen_raise e w'
      | (inr result, w') =>
          let ids := result_ids result in
          match Py.range 0 (Z.of_nat (length ids)) (batch_size self) with
          | None => gen_raise ValueError w'
          | Some starts => fetch_batches self c ids starts w'
          end
      end
  end.

Definition load_from_state (self : AzureDevopsConnector) (w : World)
    : Generated (list Models.Document) :=
  _fetch_work_items self None None w.

(** [poll_source], for bounds that are whole seconds since the epoch; a
    bound with a fraction of a second (the source takes floats) is outside
    this model.  A bound that does not convert ends the poll with the error of
    the conversion, before the retrieval routine is entered. *)
Definition poll_source (self : AzureDevopsConnector) (start end_ : Z)
    (w : World) : Generated (list Models.Document) :=
  match Py.fromtimestamp_utc start with
  | None => gen_raise TimestampError w
  | Some start_dt =>
      match Py.fromtimestamp_utc end_ with
      | None => gen_raise TimestampError w
      | Some end_dt => _fetch_work_items self (Some start_dt) (Some end_dt) w
      end
  end.

End Connector.

(** ** Notions used in the statements *)

(** The value of a field of an item, if the item has a field mapping and the
    mapping has the key. *)
Definition field_of (item : Sdk.WorkItem) (key : string) : option Py.value :=
  match Sdk.fields item with
  | Some m => m !! key
  | None => None
  end.

(** The least number of groups of [b] that cover [n]. *)
Definition ceil_div (n b : Z) : Z := ((n + b - 1) / b)%Z.

(** [p] occurs in [s] as a contiguous piece of text. *)
Definition str_infix (p s : string) : Prop := ∃ l r, s = l +:+ p +:+ r.

(** [s] ends with [p]. *)
Definition str_suffix (p s : string) : Prop := ∃ l, s = l +:+ p.

Fixpoint prefixb (p s : string) : bool :=
  match p, s with
  | EmptyString, _ => true
  | String a p', String b s' => Ascii.eqb a b && prefixb p' s'
  | String _ _, EmptyString => false
  end.

(** [p in s] as a test. *)
Fixpoint infixb (p s : string) : bool :=
  prefixb p s ||
  match s with
  | EmptyString => false
  | String _ s' => infixb p s'
  end.

Definition chars (s : string) : list ascii := String.list_ascii_of_string s.

(** The characters [isoformat] can produce. *)
Definition iso_chars : list ascii := chars "0123456789-T:.+".

(** [c in s] as a test. *)
Definition has_char (c : ascii) (s : string) : bool :=
  existsb (Ascii.eqb c) (chars s).

(** Every character of [s] is one [isoformat] can produce. *)
Definition iso_text (s : string) : bool :=
  forallb (λ c, existsb (Ascii.eqb c) iso_chars) (chars s).

(** The text by which an upper bound on the changed date is recognised. *)
Definition upper_bound_marker : string := "[System.ChangedDate] <=".

(** The update timestamp as the specification words it: a string is parsed
    after stripping the zone suffix, the current time [now] stands in on
    parse failure and for every other kind of value, and UTC is attached. *)
Definition spec_updated_at (fromisoformat : string → option Py.datetime)
    (now : Py.datetime) (changed : option Py.value) : Py.datetime :=
  Py.replace_tzinfo
    match changed with
    | Some (Py.Str s) =>
        match fromisoformat (Py.rstrip "Z" s) with
        | Some d => d
        | None => now
        end
    | _ => now
    end
    Py.utc.

(** The timestamp [make_document] settles on before UTC is attached, as a
    value: parsed text, a [datetime] passed through, or the clock reading
    [now]. *)
Definition chosen_updated_at (fromisoformat : string → option Py.datetime)
    (now : Py.datetime) (changed : option Py.value) : Py.datetime :=
  match changed with
  | Some (Py.Str s) =>
      match fromisoformat (Py.rstrip "Z" s) with
      | Some d => d
      | None => now
      end
  | Some (Py.Datetime d) => d
  | _ => now
  end.

(** What every yielded document must satisfy: a non-empty identifier and a
    timestamp that carries the UTC offset. *)
Definition well_formed_document (d : Models.Document) : Prop :=
  Models.doc_id d ≠ "" ∧ Py.tzinfo (Models.doc_updated_at d) = Some Py.utc.

(** What every yielded batch must satisfy. *)
Definition well_formed_batch (b : list Models.Document) : Prop :=
  b ≠ [] ∧ Forall well_formed_document b.

(** The query text for a start bound alone, as the specification words it
    for every project name. *)
Definition start_only_query_claim (project : string) (start : Py.datetime)
    : Prop :=
  let q := wiql_query project (Some start) None in
  str_infix ("[System.TeamProject]='" +:+ project +:+ "'") q ∧
  str_infix ("[System.ChangedDate] >= '" +:+ Py.isoformat start +:+ "'") q ∧
  ¬ str_infix upper_bound_marker q ∧
  str_suffix " ORDER BY [System.ChangedDate] ASC" q.

(** ** Sample collaborators, for concrete runs *)

Module Sample.

Definition item (i : Z) : Sdk.WorkItem :=
  {| Sdk.id := i; Sdk.url := None; Sdk.fields := None |}.

(** A client whose query matches five items and whose item fetch returns
    the requested items. *)
Definition echo_client : Sdk.WorkItemTrackingClient :=
  {| Sdk.query_by_wiql := λ _,
       inr {| Sdk.work_items :=
                Some (map Sdk.Build_WorkItemReference [11; 12; 13; 14; 15]%Z) |};
     Sdk.get_work_items := λ ids _ _, inr (map item ids) |}.

Definition connection (base_url user password : string)
    : Sdk.error + Sdk.WorkItemTrackingClient :=
  inr echo_client.

Definition no_parse (s : string) : option Py.datetime := None.

Definition midnight : Py.datetime :=
  Py.mk_datetime 2024%Z 1%Z 1%Z 0%Z 0%Z 0%Z 0%Z None.

Definition noon : Py.datetime :=
  Py.mk_datetime 2024%Z 6%Z 15%Z 12%Z 0%Z 0%Z 0%Z None.

Definition clock (n : nat) : Py.datetime := noon.

Definition world0 : World := {| calls := []; clock_reads := 0 |}.

Definition connector (c : option Sdk.WorkItemTrackingClient)
    : AzureDevopsConnector :=
  {| organization := "org"; project := "Alpha"; batch_size := 2%Z;
     client := c |}.

(** A parser that knows one timestamp. *)
Definition parse_midnight (s : string) : option Py.datetime :=
  if String.eqb s "2024-01-01T00:00:00" then Some midnight else None.

(** An item with every field the connector reads. *)
Definition full_item : Sdk.WorkItem :=
  {| Sdk.id := 7%Z;
     Sdk.url := Some "https://dev.azure.com/org/_apis/wit/workItems/7";
     Sdk.fields := Some (list_to_map
       [ ("System.Title", Py.Str "Fix login");
         ("System.Description", Py.Str "Login fails");
         ("System.ChangedDate", Py.Str "2024-01-01T00:00:00Z");
         ("System.AssignedTo", Py.Str "Ada");
         ("System.State", Py.Str "Active") ]) |}.

(** An item whose changed date arrives as a [datetime] object. *)
Definition dated_item : Sdk.WorkItem :=
  {| Sdk.id := 7%Z; Sdk.url := None;
     Sdk.fields := Some {[ "System.ChangedDate" := Py.Datetime midnight ]} |}.

(** A project name that carries query text of its own. *)
Definition crafted_project : string :=
  "x' AND [System.ChangedDate] <= '2000-01-01".

End Sample.

(** ** Notions used in the further properties *)

(** Lines 58-59: the groups of identifiers the outer loop walks through, in
    order.  There is none when [range] refuses a zero step. *)
Definition id_batches (ids : list Z) (size : Z) : list (list Z) :=
  match Py.range 0 (Z.of_nat (length ids)) size with
  | Some starts => map (λ j, Py.slice ids j (j + size)) starts
  | None => []
  end.

(** Line 60: the call that asks for one group of items. *)
Definition item_request (project : string) (batch_ids : list Z) : Sdk.call :=
  Sdk.GetWorkItems batch_ids project "Fields".

(** The item fetch answers a request with the requested items, in order. *)
Definition answers_faithfully (c : Sdk.WorkItemTrackingClient)
    (project : string) (batch_ids : list Z) : Prop :=
  ∃ items, Sdk.get_work_items c batch_ids project "Fields" = inr items ∧
           map Sdk.id items = batch_ids.

(** The identifiers, as text, of the items the client returns for a
    request; none when it refuses the request. *)
Definition returned_ids (c : Sdk.WorkItemTrackingClient)
    (project : string) (batch_ids : list Z) : list string :=
  match Sdk.get_work_items c batch_ids project "Fields" with
  | inr items => map (λ item, Py.str_int (Sdk.id item)) items
  | inl _ => []
  end.

(** [bool(l)] for a list. *)
Definition nonempty {A} (l : list A) : bool :=
  match l with
  | [] => false
  | _ :: _ => true
  end.

(** Whether the update timestamp of an item with this changed date comes
    from the clock. *)
Definition reads_clock (fromisoformat : string → option Py.datetime)
    (changed : option Py.value) : bool :=
  match changed with
  | Some (Py.Str s) =>
      match fromisoformat (Py.rstrip "Z" s) with
      | Some _ => false
      | None => true
      end
  | Some (Py.Datetime _) => false
  | _ => true
  end.

(** [s] is made of the character [c] only. *)
Fixpoint only_char (c : ascii) (s : string) : bool :=
  match s with
  | EmptyString => true
  | String a s' => Ascii.eqb a c && only_char c s'
  end.

(** The text by which a lower bound on the changed date is recognised. *)
Definition lower_bound_marker : string := "[System.ChangedDate] >=".

(** Further sample collaborators. *)
Module Scenario.

(** A client whose item fetch fails on the batch that starts with 13. *)
Definition failing_client : Sdk.WorkItemTrackingClient :=
  {| Sdk.query_by_wiql := Sdk.query_by_wiql Sample.echo_client;
     Sdk.get_work_items := λ ids project expand,
       match ids with
       | 13%Z :: _ => inl "503 Service Unavailable"
       | _ => Sdk.get_work_items Sample.echo_client ids project expand
       end |}.

(** A client whose query fails. *)
Definition offline_client : Sdk.WorkItemTrackingClient :=
  {| Sdk.query_by_wiql := λ _, inl "connection refused";
     Sdk.get_work_items := Sdk.get_work_items Sample.echo_client |}.

(** A client whose query matches nothing. *)
Definition silent_client : Sdk.WorkItemTrackingClient :=
  {| Sdk.query_by_wiql := λ _, inr {| Sdk.work_items := None |};
     Sdk.get_work_items := Sdk.get_work_items Sample.echo_client |}.

(** A client that returns the items twice over for the first batch, none
    for the batch that starts with 13, and the requested items otherwise. *)
Definition erratic_client : Sdk.WorkItemTrackingClient :=
  {| Sdk.query_by_wiql := Sdk.query_by_wiql Sample.echo_client;
     Sdk.get_work_items := λ ids project expand,
       match ids with
       | 11%Z :: _ => inr (map Sample.item (ids ++ ids))
       | 13%Z :: _ => inr []
       | _ => Sdk.get_work_items Sample.echo_client ids project expand
       end |}.

(** A client that answers the three groups of the five identifiers taken two
    at a time and refuses every other request. *)
Definition strict_client : Sdk.WorkItemTrackingClient :=
  {| Sdk.query_by_wiql := Sdk.query_by_wiql Sample.echo_client;
     Sdk.get_work_items := λ ids project expand,
       match ids with
       | [11; 12]%Z | [13; 14]%Z | [15]%Z => inr (map Sample.item ids)
       | _ => inl "400 Bad Request"
       end |}.

Definition five_refs : Sdk.WorkItemQueryResult :=
  {| Sdk.work_items :=
       Some (map Sdk.Build_WorkItemReference [11; 12; 13; 14; 15]%Z) |}.

Definition sized_connector (size : Z) : AzureDevopsConnector :=
  {| organization := "org"; project := "Alpha"; batch_size := size;
     client := Some Sample.echo_client |}.

(** Two items that differ in the zone suffix of the changed date only. *)
Definition plain_dated : Sdk.WorkItem :=
  {| Sdk.id := 1%Z; Sdk.url := None;
     Sdk.fields :=
       Some {[ "System.ChangedDate" := Py.Str "2024-01-01T00:00:00" ]} |}.

Definition zulu_dated : Sdk.WorkItem :=
  {| Sdk.id := 2%Z; Sdk.url := None;
     Sdk.fields :=
       Some {[ "System.ChangedDate" := Py.Str "2024-01-01T00:00:00ZZ" ]} |}.

End Scenario.

(** * Properties *)

Example str_int_examples :
  Py.str_int 0%Z = "0" ∧ Py.str_int 42%Z = "42" ∧ Py.str_int (-7)%Z = "-7".
Proof. repeat split. Qed.

Example rstrip_examples :
  Py.rstrip "Z" "2024-01-02T03:04:05Z" = "2024-01-02T03:04:05" ∧
  Py.rstrip "Z" "2024ZZ" = "2024" ∧ Py.rstrip "Z" "aZb" = "aZb" ∧
  Py.rstrip "Z" "ZZ" = "".
Proof. repeat split. Qed.

Example fromtimestamp_examples :
  (Py.isoformat <$> Py.fromtimestamp_utc 0%Z) = Some "1970-01-01T00:00:00+00:00" ∧
  (Py.isoformat <$> Py.fromtimestamp_utc 1700000000%Z)
    = Some "2023-11-14T22:13:20+00:00" ∧
  (Py.isoformat <$> Py.fromtimestamp_utc 951782400%Z)
    = Some "2000-02-29T00:00:00+00:00" ∧
  (Py.isoformat <$> Py.fromtimestamp_utc (-1)%Z)
    = Some "1969-12-31T23:59:59+00:00" ∧
  (Py.isoformat <$> Py.fromtimestamp_utc 253402300799%Z)
    = Some "9999-12-31T23:59:59+00:00" ∧
  Py.fromtimestamp_utc 253402300800%Z = None ∧
  (Py.isoformat <$> Py.fromtimestamp_utc (-62135596800)%Z)
    = Some "0001-01-01T00:00:00+00:00" ∧
  Py.fromtimestamp_utc (-62135596801)%Z = None.
Proof. vm_compute. repeat split. Qed.

Example isoformat_examples :
  Py.isoformat (Py.mk_datetime 2024%Z 1%Z 2%Z 3%Z 4%Z 5%Z 0%Z None) = "2024-01-02T03:04:05" ∧
  Py.isoformat (Py.mk_datetime 2024%Z 1%Z 2%Z 3%Z 4%Z 5%Z 250%Z (Some 19800%Z))
    = "2024-01-02T03:04:05.000250+05:30" ∧
  Py.isoformat (Py.mk_datetime 987%Z 12%Z 31%Z 23%Z 59%Z 59%Z 0%Z (Some (-3600)%Z))
    = "0987-12-31T23:59:59-01:00".
Proof. vm_compute. repeat split. Qed.

Example range_slice_examples :
  (Py.range 0 5 2 = Some [0; 2; 4] ∧ Py.range 0 4 2 = Some [0; 2] ∧
   Py.range 0 0 3 = Some [] ∧ Py.range 0 5 0 = None ∧
   Py.range 0 5 (-1) = Some [] ∧
   Py.slice [1; 2; 3; 4; 5] 4 6 = [5] ∧
   Py.slice [1; 2; 3; 4; 5] 2 4 = [3; 4] ∧
   Py.slice [1; 2; 3; 4; 5] (-2) 9 = [4; 5])%Z.
Proof. vm_compute. repeat split. Qed.


(** ** Basic facts *)

Lemma string_app_cons (x : ascii) (a b : string) :
  String x a +:+ b = String x (a +:+ b).
Proof. reflexivity. Qed.

Lemma string_app_nil_l (a : string) : "" +:+ a = a.
Proof. reflexivity. Qed.

Lemma string_app_assoc (a b c : string) : (a +:+ b) +:+ c = a +:+ b +:+ c.
Proof.
  induction a as [|x a IH]; [done|].
  by rewrite !string_app_cons, IH.
Qed.

Lemma str_int_nonempty (n : Z) : Py.str_int n ≠ "".
Proof.
  unfold Py.str_int, NilZero.string_of_int, NilZero.string_of_uint.
  destruct (Z.to_int n) as [d|d]; [|discriminate].
  destruct d; discriminate.
Qed.

Lemma fields_or_empty_lookup (item : Sdk.WorkItem) (key : string) :
  fields_or_empty (Sdk.fields item) !! key = field_of item key.
Proof.
  unfold fields_or_empty, field_of.
  destruct (Sdk.fields item) as [m|]; [|apply lookup_empty].
  simpl. case_bool_decide as Hm; simpl; [|done].
  rewrite Hm. apply lookup_empty.
Qed.

(** The identifiers of a query result are those of all its references. *)
Lemma result_ids_all (result : Sdk.WorkItemQueryResult) :
  result_ids result = map Sdk.ref_id (default [] (Sdk.work_items result)).
Proof.
  unfold result_ids. by destruct (Sdk.work_items result) as [[|r refs]|].
Qed.

(** [ceil_div n b] is the ceiling of [n / b]. *)
Lemma ceil_div_bounds (n b : Z) :
  (0 < b)%Z → ((ceil_div n b - 1) * b < n ≤ ceil_div n b * b)%Z.
Proof.
  intros Hb. unfold ceil_div.
  pose proof (Z.div_mod (n + b - 1) b ltac:(lia)) as Hdm.
  pose proof (Z.mod_pos_bound (n + b - 1) b Hb) as Hmod.
  nia.
Qed.

(** ** Ranges and slices *)

Section Batching.

Context {A : Type}.
Variable ids : list A.
Variable size : Z.
Hypothesis size_pos : (0 < size)%Z.

Local Abbreviation len := (Z.of_nat (length ids)).

(** A batch that starts inside the list, by position. *)
Lemma slice_batch (i : Z) :
  (0 ≤ i < len)%Z →
  Py.slice ids i (i + size)
    = take (Z.to_nat (Z.min size (len - i))) (drop (Z.to_nat i) ids).
Proof.
  intros Hi. unfold Py.slice, Py.slice_index.
  destruct (Z.ltb_spec i 0); [lia|].
  destruct (Z.ltb_spec (i + size) 0); [lia|].
  f_equal; [|f_equal]; lia.
Qed.

Lemma slice_batch_nonempty (i : Z) :
  (0 ≤ i < len)%Z → Py.slice ids i (i + size) ≠ [].
Proof.
  intros Hi Hnil. apply (f_equal length) in Hnil.
  rewrite slice_batch, length_take, length_drop in Hnil by done.
  simpl in Hnil. lia.
Qed.

Lemma slice_batch_rest (i : Z) :
  (0 ≤ i < len)%Z →
  Py.slice ids i (i + size) ++ drop (Z.to_nat (i + size)) ids
    = drop (Z.to_nat i) ids.
Proof.
  intros Hi. rewrite slice_batch by done.
  destruct (Z.le_gt_cases size (len - i)) as [Hle|Hgt].
  - replace (Z.to_nat (i + size)) with (Z.to_nat i + Z.to_nat size)%nat by lia.
    rewrite <- drop_drop.
    replace (Z.min size (len - i)) with size by lia.
    apply take_drop.
  - rewrite (drop_ge ids (Z.to_nat (i + size))) by lia.
    rewrite app_nil_r. apply take_ge. rewrite length_drop. lia.
Qed.

Lemma ceil_div_step (n : Z) :
  (0 < n)%Z → ceil_div n size = (1 + ceil_div (n - size) size)%Z.
Proof.
  intros Hn. unfold ceil_div.
  replace (n + size - 1)%Z with ((n - size + size - 1) + 1 * size)%Z by lia.
  rewrite Z.div_add by lia. lia.
Qed.

Lemma ceil_div_nonpos (n : Z) : (n ≤ 0)%Z → (ceil_div n size ≤ 0)%Z.
Proof.
  intros Hn. unfold ceil_div.
  assert ((n + size - 1) / size < 1)%Z; [|lia].
  apply Z.div_lt_upper_bound; lia.
Qed.

Lemma ceil_div_nonneg (n : Z) : (1 - size ≤ n)%Z → (0 ≤ ceil_div n size)%Z.
Proof. intros Hn. unfold ceil_div. apply Z.div_pos; lia. Qed.

(** The start indices [range] produces from [i] on cut the rest of the list
    into non-empty consecutive batches. *)
Lemma range_from_batches (fuel : nat) (i : Z) :
  (0 ≤ i)%Z → (len - i ≤ Z.of_nat fuel)%Z →
  let starts := Py.range_from fuel i len size in
  concat (map (λ j, Py.slice ids j (j + size)) starts)
    = drop (Z.to_nat i) ids ∧
  Z.of_nat (length starts) = Z.max 0 (ceil_div (len - i) size) ∧
  Forall (λ j, Py.slice ids j (j + size) ≠ []) starts.
Proof.
  revert i. induction fuel as [|fuel IH]; intros i Hi Hfuel; simpl.
  - rewrite drop_ge by lia.
    pose proof (ceil_div_nonpos (len - i)). repeat split; [lia|constructor].
  - destruct (Z.ltb_spec 0 size); [|lia].
    destruct (Z.ltb_spec i len) as [Hlt|Hge].
    + destruct (IH (i + size)%Z) as (Hcat & Hlen & Hne); [lia..|].
      simpl. rewrite Hcat. split; [apply slice_batch_rest; lia|]. split.
      * rewrite (ceil_div_step (len - i)) by lia.
        pose proof (ceil_div_nonneg (len - i - size)).
        replace (len - (i + size))%Z with (len - i - size)%Z in Hlen by lia.
        lia.
      * constructor; [apply slice_batch_nonempty; lia|exact Hne].
    + rewrite drop_ge by lia.
      pose proof (ceil_div_nonpos (len - i)). repeat split; [simpl; lia|constructor].
Qed.

(** [range(0, len(ids), size)] cuts the whole list into [ceil(len/size)]
    non-empty batches that follow each other. *)
Lemma range_batches :
  ∃ starts,
    Py.range 0 len size = Some starts ∧
    concat (map (λ j, Py.slice ids j (j + size)) starts) = ids ∧
    Z.of_nat (length starts) = ceil_div len size ∧
    Forall (λ j, Py.slice ids j (j + size) ≠ []) starts.
Proof.
  unfold Py.range. destruct (Z.eqb_spec size 0); [lia|].
  eexists. split; [reflexivity|].
  destruct (range_from_batches (Z.to_nat (Z.abs (len - 0))) 0)
    as (Hcat & Hlen & Hne); [lia..|].
  cbv zeta in *. rewrite Z.sub_0_r in *.
  pose proof (ceil_div_nonneg len). repeat split; [done|lia|done].
Qed.

End Batching.

Section ConnectorFacts.

Variable connection :
  string → string → string → Sdk.error + Sdk.WorkItemTrackingClient.
Variable fromisoformat : string → option Py.datetime.
Variable clock : nat → Py.datetime.

Local Abbreviation make_document := (make_document fromisoformat clock).
Local Abbreviation updated_at_of := (updated_at_of fromisoformat clock).
Local Abbreviation fetch_batches := (fetch_batches fromisoformat clock).
Local Abbreviation _fetch_work_items := (_fetch_work_items fromisoformat clock).
Local Abbreviation load_from_state := (load_from_state fromisoformat clock).
Local Abbreviation poll_source := (poll_source fromisoformat clock).
Local Abbreviation load_credentials := (load_credentials connection).

Lemma updated_at_of_run (fields : gmap string Py.value) (w : World) :
  ∃ w', updated_at_of fields w =
          (inr (Py.replace_tzinfo
                  (chosen_updated_at fromisoformat (clock (clock_reads w))
                     (fields !! "System.ChangedDate")) Py.utc),
           w')
        ∧ calls w' = calls w.
Proof.
  unfold updated_at_of, chosen_updated_at, Py.dict_get, bind, ret, utcnow.
  destruct (fields !! "System.ChangedDate") as [[| | |s| | |]|]; simpl;
    try (eexists; split; reflexivity).
  destruct (fromisoformat (Py.rstrip "Z" s)); simpl;
    eexists; split; reflexivity.
Qed.

(** The mapped document, field by field. *)
Lemma make_document_run (item : Sdk.WorkItem) (w : World) :
  ∃ doc w',
    make_document item w = (inr doc, w') ∧ calls w' = calls w ∧
    Models.doc_id doc = Py.str_int (Sdk.id item) ∧
    Models.semantic_identifier doc =
      default (Py.Str ("Work Item " +:+ Py.str_int (Sdk.id item)))
              (field_of item "System.Title") ∧
    Models.doc_updated_at doc =
      Py.replace_tzinfo
        (chosen_updated_at fromisoformat (clock (clock_reads w))
           (field_of item "System.ChangedDate")) Py.utc ∧
    Models.primary_owners doc =
      match field_of item "System.AssignedTo" with
      | Some v =>
          if Py.truthy v then [ {| Models.display_name := v |} ] else []
      | None => []
      end.
Proof.
  unfold make_document, bind.
  destruct (updated_at_of_run (fields_or_empty (Sdk.fields item)) w)
    as (w' & -> & Hcalls).
  eexists _, w'. split; [reflexivity|]. split; [exact Hcalls|]. simpl.
  unfold Py.dict_get_default, Py.dict_get.
  rewrite !fields_or_empty_lookup.
  repeat split.
  by destruct (field_of item "System.AssignedTo").
Qed.

(** ** Field mapping *)

(** C2 (as amended).  The update timestamp of a mapped document: a string
    changed-date is parsed by [fromisoformat] after every trailing ["Z"] has
    been stripped, and the clock reading stands in when parsing fails; a
    changed-date that already is a [datetime] is taken as it is; a missing
    field, a missing field mapping and any other kind of value give the clock
    reading.  In every case UTC is attached by replacing the offset: the
    wall-clock fields of the chosen value are kept. *)
Theorem updated_at_by_kind (item : Sdk.WorkItem) (w : World) :
  ∃ doc w',
    make_document item w = (inr doc, w') ∧
    let now := clock (clock_reads w) in
    let chosen :=
      match field_of item "System.ChangedDate" with
      | Some (Py.Str s) =>
          match fromisoformat (Py.rstrip "Z" s) with
          | Some d => d
          | None => now
          end
      | Some (Py.Datetime d) => d
      | Some _ | None => now
      end in
    Models.doc_updated_at doc = Py.replace_tzinfo chosen Py.utc ∧
    Py.tzinfo (Models.doc_updated_at doc) = Some Py.utc ∧
    (Py.year (Models.doc_updated_at doc), Py.month (Models.doc_updated_at doc),
     Py.day (Models.doc_updated_at doc), Py.hour (Models.doc_updated_at doc),
     Py.minute (Models.doc_updated_at doc), Py.second (Models.doc_updated_at doc),
     Py.microsecond (Models.doc_updated_at doc))
    = (Py.year chosen, Py.month chosen, Py.day chosen, Py.hour chosen,
       Py.minute chosen, Py.second chosen, Py.microsecond chosen).
Proof.
  destruct (make_document_run item w) as (doc & w' & Hrun & _ & _ & _ & Hup & _).
  exists doc, w'. split; [exact Hrun|]. cbv zeta.
  rewrite Hup. unfold chosen_updated_at.
  destruct (field_of item "System.ChangedDate") as [[| | |s| | |]|];
    repeat split; reflexivity.
Qed.

(** C8.  Primary owners of a mapped document: one owner whose display name
    is the value of the assigned-to field when that field is present and
    non-empty (true in Python's sense), and no owner when the field is absent
    or empty. *)
Theorem primary_owners_by_assignee (item : Sdk.WorkItem) (w : World) :
  ∃ doc w',
    make_document item w = (inr doc, w') ∧
    (∀ v, field_of item "System.AssignedTo" = Some v → Py.truthy v = true →
          Models.primary_owners doc = [ {| Models.display_name := v |} ]) ∧
    (∀ name, field_of item "System.AssignedTo" = Some (Py.Str name) →
             name ≠ "" →
             Models.primary_owners doc
               = [ {| Models.display_name := Py.Str name |} ]) ∧
    (field_of item "System.AssignedTo" = None →
     Models.primary_owners doc = []) ∧
    (∀ v, field_of item "System.AssignedTo" = Some v → Py.truthy v = false →
          Models.primary_owners doc = []).
Proof.
  destruct (make_document_run item w) as (doc & w' & Hrun & _ & _ & _ & _ & Hown).
  exists doc, w'. split; [exact Hrun|]. rewrite Hown.
  repeat split.
  - by intros v -> ->.
  - intros name -> Hname. destruct name; [done|reflexivity].
  - by intros ->.
  - by intros v -> ->.
Qed.

(** C9.  Semantic identifier of a mapped document: the label
    ["Work Item {id}"] when the item has no title field, the value of the
    title field when it has one. *)
Theorem semantic_identifier_title_or_label (item : Sdk.WorkItem) (w : World) :
  ∃ doc w',
    make_document item w = (inr doc, w') ∧
    (field_of item "System.Title" = None →
     Models.semantic_identifier doc
       = Py.Str ("Work Item " +:+ Py.str_int (Sdk.id item))) ∧
    (∀ title, field_of item "System.Title" = Some title →
              Models.semantic_identifier doc = title).
Proof.
  destruct (make_document_run item w) as (doc & w' & Hrun & _ & _ & Hsem & _).
  exists doc, w'. split; [exact Hrun|]. rewrite Hsem.
  split; [by intros ->|by intros title ->].
Qed.

(** ** Credentials *)

Lemma load_credentials_str (self : AzureDevopsConnector)
    (credentials : gmap string Py.value) (pat : string) (w : World) :
  credentials !! "azure_devops_pat" = Some (Py.Str pat) →
  let base_url := "https://dev.azure.com/" +:+ organization self in
  let w' := {| calls := calls w ++ [Sdk.Connect base_url "" pat];
               clock_reads := clock_reads w |} in
  load_credentials self credentials w =
    match connection base_url "" pat with
    | inl e => (inl (SdkError e), self, w')
    | inr c => (inr Py.None_, set_client self c, w')
    end.
Proof.
  intros Hpat. unfold load_credentials, Py.dict_get, sdk_call. rewrite Hpat.
  cbv zeta. by destruct (connection _ _ _).
Qed.

(** C5.  Credential loading.  When the token key is absent or its value is
    not a string, the missing-credential error is raised, no call has left
    the process and the connector, its client handle included, is as it was.
    When the value is a string, the outcome is never the missing-credential
    error, the one call made is the connection with that token, and the
    client the connection returns is stored in the handle. *)
Theorem load_credentials_token_check (self : AzureDevopsConnector)
    (credentials : gmap string Py.value) (w : World) :
  ((∀ pat, credentials !! "azure_devops_pat" ≠ Some (Py.Str pat)) →
   load_credentials self credentials w =
     (inl (ConnectorMissingCredentialError "Azure DevOps PAT missing or invalid"),
      self, w)) ∧
  (∀ pat, credentials !! "azure_devops_pat" = Some (Py.Str pat) →
     let '(outcome, self', w') := load_credentials self credentials w in
     (∀ msg, outcome ≠ inl (ConnectorMissingCredentialError msg)) ∧
     calls w' = calls w ++
       [Sdk.Connect ("https://dev.azure.com/" +:+ organization self) "" pat] ∧
     (∀ c, connection ("https://dev.azure.com/" +:+ organization self) "" pat
             = inr c →
           outcome = inr Py.None_ ∧ client self' = Some c)).
Proof.
  split.
  - intros Hnot. unfold load_credentials, Py.dict_get.
    destruct (credentials !! "azure_devops_pat") as [[| | |pat| | |]|] eqn:E;
      try reflexivity.
    by destruct (Hnot pat).
  - intros pat Hpat. rewrite (load_credentials_str _ _ _ _ Hpat). cbv zeta.
    destruct (connection _ _ _) as [e|c]; (split; [done|]); (split; [done|]).
    + intros c [=].
    + by intros c' [= ->].
Qed.

(** C10.  An empty token is a string: the missing-credential error is not
    raised, the connection is attempted with the empty token, and the client
    it returns is stored in the handle. *)
Theorem load_credentials_empty_token (self : AzureDevopsConnector)
    (credentials : gmap string Py.value) (w : World) :
  credentials !! "azure_devops_pat" = Some (Py.Str "") →
  let '(outcome, self', w') := load_credentials self credentials w in
  (∀ msg, outcome ≠ inl (ConnectorMissingCredentialError msg)) ∧
  calls w' = calls w ++
    [Sdk.Connect ("https://dev.azure.com/" +:+ organization self) "" ""] ∧
  (∀ c, connection ("https://dev.azure.com/" +:+ organization self) "" ""
          = inr c →
        outcome = inr Py.None_ ∧ client self' = Some c).
Proof.
  intros Hpat. rewrite (load_credentials_str _ _ _ _ Hpat). cbv zeta.
  destruct (connection _ _ _) as [e|c]; (split; [done|]); (split; [done|]).
  - intros c [=].
  - by intros c' [= ->].
Qed.

(** ** Retrieval without a client *)

(** C4.  With the client handle unset, the retrieval routine raises the
    missing-credential error, yields nothing and leaves the world as it was:
    no query is executed.  This holds for any bounds, hence for a full load
    and for a poll whose bounds convert to timestamps. *)
Theorem fetch_requires_client (self : AzureDevopsConnector) (w : World) :
  client self = None →
  let failed r :=
    raised r = Some (ConnectorMissingCredentialError "Azure DevOps") ∧
    yielded r = [] ∧ world r = w in
  (∀ start end_, failed (_fetch_work_items self start end_ w)) ∧
  failed (load_from_state self w) ∧
  (∀ start end_, is_Some (Py.fromtimestamp_utc start) →
                 is_Some (Py.fromtimestamp_utc end_) →
                 failed (poll_source self start end_ w)).
Proof.
  intros Hnone. cbv zeta.
  assert (∀ start end_,
    _fetch_work_items self start end_ w
      = gen_raise (ConnectorMissingCredentialError "Azure DevOps") w) as Hfetch.
  { intros. unfold _fetch_work_items. by rewrite Hnone. }
  repeat split; intros; unfold load_from_state, poll_source;
    repeat match goal with H : is_Some _ |- _ => destruct H as [? ->] end;
    rewrite Hfetch; reflexivity.
Qed.

(** ** The batches *)

Lemma mapM_make_document_run (items : list Sdk.WorkItem) (w : World) :
  ∃ docs w',
    mapM make_document items w = (inr docs, w') ∧ calls w' = calls w ∧
    map Models.doc_id docs = map (λ it, Py.str_int (Sdk.id it)) items ∧
    Forall well_formed_document docs.
Proof.
  revert w. induction items as [|item items IH]; intros w.
  - exists [], w. by repeat split.
  - destruct (make_document_run item w)
      as (doc & w1 & Hdoc & Hc1 & Hid & _ & Hup & _).
    destruct (IH w1) as (docs & w2 & Hdocs & Hc2 & Hids & Hwf).
    exists (doc :: docs), w2. simpl. unfold bind at 1. rewrite Hdoc.
    unfold bind at 1. rewrite Hdocs. unfold ret.
    split; [reflexivity|]. split; [congruence|]. split.
    + simpl. by rewrite Hid, Hids.
    + constructor; [|exact Hwf]. split.
      * rewrite Hid. apply str_int_nonempty.
      * by rewrite Hup.
Qed.

(** Runs the inner loop over the items named in the goal. *)
Tactic Notation "run_inner_loop" "as" simple_intropattern(pat) :=
  match goal with
  | |- context [mapM _ ?items ?w1] =>
      destruct (mapM_make_document_run items w1) as pat
  end.

(** The outer loop only ever appends to the trace, and what it yields is
    well formed, whatever the client answers. *)
Lemma fetch_batches_invariant (self : AzureDevopsConnector)
    (c : Sdk.WorkItemTrackingClient) (ids starts : list Z) (w : World) :
  let r := fetch_batches self c ids starts w in
  Forall well_formed_batch (yielded r) ∧ ∃ rest, calls (world r) = calls w ++ rest.
Proof.
  revert w. induction starts as [|i starts IH]; intros w; simpl.
  - split; [constructor|]. exists []. by rewrite app_nil_r.
  - unfold bind, sdk_call.
    destruct (Sdk.get_work_items c _ _ _) as [e|items]; simpl.
    { split; [constructor|]. by eexists. }
    run_inner_loop as (docs & w2 & -> & Hc & _ & Hwf).
    simpl in Hc.
    destruct (IH w2) as [Hy [rest Hrest]].
    assert (∃ rest', calls (world (fetch_batches self c ids starts w2))
                     = calls w ++ rest') as Hcalls.
    { rewrite Hrest, Hc, <- app_assoc. by eexists. }
    destruct docs as [|doc docs]; [by split|].
    split; [|exact Hcalls]. simpl. constructor; [|exact Hy]. by split.
Qed.

Lemma fetch_work_items_well_formed (self : AzureDevopsConnector)
    (start end_ : option Py.datetime) (w : World) :
  Forall well_formed_batch (yielded (_fetch_work_items self start end_ w)).
Proof.
  unfold _fetch_work_items.
  destruct (client self) as [c|]; [|constructor].
  unfold sdk_call. destruct (Sdk.query_by_wiql c _) as [e|result];
    [constructor|].
  destruct (Py.range _ _ _) as [starts|]; [|constructor].
  apply fetch_batches_invariant.
Qed.

(** C3.  Whatever the client answers and whatever the items contain, every
    batch the retrieval routine yields is non-empty, and every document in it
    has a non-empty identifier and a timestamp carrying the UTC offset; the
    same holds for a full load and for a poll. *)
Theorem yielded_batches_well_formed (self : AzureDevopsConnector) (w : World) :
  (∀ start end_,
     Forall well_formed_batch (yielded (_fetch_work_items self start end_ w))) ∧
  Forall well_formed_batch (yielded (load_from_state self w)) ∧
  (∀ start end_,
     Forall well_formed_batch (yielded (poll_source self start end_ w))).
Proof.
  split; [intros; apply fetch_work_items_well_formed|].
  split; [apply fetch_work_items_well_formed|].
  intros start end_. unfold poll_source.
  destruct (Py.fromtimestamp_utc start); [|constructor].
  destruct (Py.fromtimestamp_utc end_); [|constructor].
  apply fetch_work_items_well_formed.
Qed.

(** With a client, the first call of the retrieval routine is the query
    with the text built from the project and the bounds. *)
Lemma fetch_first_call (self : AzureDevopsConnector)
    (c : Sdk.WorkItemTrackingClient) (start end_ : option Py.datetime)
    (w : World) :
  client self = Some c →
  ∃ rest, calls (world (_fetch_work_items self start end_ w))
          = calls w ++ Sdk.QueryByWiql (wiql_query (project self) start end_)
                       :: rest.
Proof.
  intros Hc. unfold _fetch_work_items. rewrite Hc. unfold sdk_call.
  destruct (Sdk.query_by_wiql c _) as [e|result]; simpl; [by eexists|].
  destruct (Py.range _ _ _) as [starts|]; simpl; [|by eexists].
  match goal with |- context [fetch_batches self c ?ids starts ?w1] =>
    destruct (fetch_batches_invariant self c ids starts w1) as [_ [rest ->]] end.
  simpl. rewrite <- app_assoc. by eexists.
Qed.

(** When the item fetch returns the requested items in the requested order,
    every start index whose batch is non-empty contributes one yielded batch,
    with the identifiers of that batch. *)
Lemma fetch_batches_faithful (self : AzureDevopsConnector)
    (c : Sdk.WorkItemTrackingClient) (ids starts : list Z) (w : World) :
  Forall (λ j, answers_faithfully c (project self)
                 (Py.slice ids j (j + batch_size self))) starts →
  Forall (λ j, Py.slice ids j (j + batch_size self) ≠ []) starts →
  let r := fetch_batches self c ids starts w in
  raised r = None ∧
  map (map Models.doc_id) (yielded r)
    = map (λ j, map Py.str_int (Py.slice ids j (j + batch_size self))) starts.
Proof.
  intros Hget Hne. revert w.
  induction starts as [|i starts IH]; intros w; simpl; [done|].
  inversion Hget as [|? ? (items & Hitems & Hids) Hget']; subst.
  inversion Hne as [|? ? Hi Hne']; subst.
  unfold bind, sdk_call. rewrite Hitems.
  run_inner_loop as (docs & w2 & -> & _ & Hdocs & _).
  rewrite <- (map_map Sdk.id Py.str_int), Hids in Hdocs.
  destruct (IH Hget' Hne' w2) as [Hraised Hyield].
  destruct docs as [|doc docs].
  - destruct (Py.slice ids i (i + batch_size self)); [done|discriminate].
  - simpl. split; [exact Hraised|]. by rewrite <- Hdocs, Hyield.
Qed.

(** C1.  For a connector with a client and a positive batch size [B], when
    the query returns [N] identifiers and the item fetch returns, for each
    group of identifiers the run asks for, the items of that group, the
    retrieval routine ends without an exception, yields
    exactly [ceil(N/B)] batches, none of them empty, and the document
    identifiers of the batches, one after the other, are the identifiers of
    the query result in the same order (as text). *)
Theorem batches_cover_query_result (self : AzureDevopsConnector)
    (c : Sdk.WorkItemTrackingClient) (start end_ : option Py.datetime)
    (result : Sdk.WorkItemQueryResult) (w : World) :
  client self = Some c →
  (0 < batch_size self)%Z →
  Sdk.query_by_wiql c (wiql_query (project self) start end_) = inr result →
  Forall (answers_faithfully c (project self))
    (id_batches (result_ids result) (batch_size self)) →
  let ids := result_ids result in
  let r := _fetch_work_items self start end_ w in
  raised r = None ∧
  Z.of_nat (length (yielded r))
    = ceil_div (Z.of_nat (length ids)) (batch_size self) ∧
  Forall (λ batch, batch ≠ []) (yielded r) ∧
  concat (map (map Models.doc_id) (yielded r)) = map Py.str_int ids.
Proof.
  intros Hc Hsize Hquery Hget. cbv zeta.
  pose proof (fetch_work_items_well_formed self start end_ w) as Hwf.
  revert Hwf.
  unfold _fetch_work_items. rewrite Hc. unfold sdk_call. rewrite Hquery.
  unfold id_batches in Hget.
  destruct (range_batches (result_ids result) (batch_size self) Hsize)
    as (starts & Hrange & Hcat & Hlen & Hne).
  rewrite Hrange in Hget |- *. rewrite Forall_map in Hget.
  match goal with |- context [fetch_batches self c ?ids starts ?w1] =>
    destruct (fetch_batches_faithful self c ids starts w1 Hget Hne)
      as [Hraised Hyield] end.
  intros Hwf. split; [exact Hraised|]. split; [|split].
  - rewrite <- Hlen. f_equal.
    apply (f_equal length) in Hyield. by rewrite !length_map in Hyield.
  - eapply Forall_impl; [exact Hwf|]. by intros batch [? _].
  - rewrite Hyield, <- (map_map _ (map Py.str_int)), <- concat_map.
    by rewrite Hcat.
Qed.

(** C6.  A poll with bounds 1700000000 and 1700003600: both bounds become
    timestamps carrying the UTC offset, and the query the poll issues holds
    both as inclusive bounds on the changed date, [>=] for the start and
    [<=] for the end. *)
Theorem poll_query_inclusive_bounds (organization project : string)
    (batch_size : Z) (c : Sdk.WorkItemTrackingClient) (w : World) :
  let self := {| organization := organization; project := project;
                 batch_size := batch_size; client := Some c |} in
  ∃ start_dt end_dt query,
    Py.fromtimestamp_utc 1700000000 = Some start_dt ∧
    Py.fromtimestamp_utc 1700003600 = Some end_dt ∧
    Py.tzinfo start_dt = Some Py.utc ∧ Py.tzinfo end_dt = Some Py.utc ∧
    Py.isoformat start_dt = "2023-11-14T22:13:20+00:00" ∧
    Py.isoformat end_dt = "2023-11-14T23:13:20+00:00" ∧
    query = wiql_query project (Some start_dt) (Some end_dt) ∧
    query =
      "SELECT [System.Id] FROM WorkItems WHERE [System.TeamProject]='"
        +:+ project +:+
      "' AND [System.ChangedDate] >= '2023-11-14T22:13:20+00:00'"
        +:+ " AND [System.ChangedDate] <= '2023-11-14T23:13:20+00:00'"
        +:+ " ORDER BY [System.ChangedDate] ASC" ∧
    str_infix " AND [System.ChangedDate] >= '2023-11-14T22:13:20+00:00'" query ∧
    str_infix " AND [System.ChangedDate] <= '2023-11-14T23:13:20+00:00'" query ∧
    ∃ rest, calls (world (poll_source self 1700000000 1700003600 w))
            = calls w ++ Sdk.QueryByWiql query :: rest.
Proof.
  intros self.
  destruct (Py.fromtimestamp_utc 1700000000) as [start_dt|] eqn:Hstart;
    [|by vm_compute in Hstart].
  destruct (Py.fromtimestamp_utc 1700003600) as [end_dt|] eqn:Hend;
    [|by vm_compute in Hend].
  exists start_dt, end_dt, (wiql_query project (Some start_dt) (Some end_dt)).
  assert (Py.isoformat start_dt = "2023-11-14T22:13:20+00:00") as Hs.
  { vm_compute in Hstart. by injection Hstart as <-. }
  assert (Py.isoformat end_dt = "2023-11-14T23:13:20+00:00") as He.
  { vm_compute in Hend. by injection Hend as <-. }
  assert (wiql_query project (Some start_dt) (Some end_dt) =
    "SELECT [System.Id] FROM WorkItems WHERE [System.TeamProject]='"
      +:+ project +:+
    "' AND [System.ChangedDate] >= '2023-11-14T22:13:20+00:00'"
      +:+ " AND [System.ChangedDate] <= '2023-11-14T23:13:20+00:00'"
      +:+ " ORDER BY [System.ChangedDate] ASC") as Hq.
  { unfold wiql_query. rewrite Hs, He. rewrite !string_app_assoc. reflexivity. }
  repeat split; try done.
  - vm_compute in Hstart. by injection Hstart as <-.
  - vm_compute in Hend. by injection Hend as <-.
  - rewrite Hq.
    exists ("SELECT [System.Id] FROM WorkItems WHERE [System.TeamProject]='"
              +:+ project +:+ "'"),
      (" AND [System.ChangedDate] <= '2023-11-14T23:13:20+00:00'"
         +:+ " ORDER BY [System.ChangedDate] ASC").
    rewrite !string_app_assoc. reflexivity.
  - rewrite Hq.
    exists ("SELECT [System.Id] FROM WorkItems WHERE [System.TeamProject]='"
              +:+ project +:+
            "' AND [System.ChangedDate] >= '2023-11-14T22:13:20+00:00'"),
      " ORDER BY [System.ChangedDate] ASC".
    rewrite !string_app_assoc. reflexivity.
  - unfold poll_source. rewrite Hstart, Hend.
    by apply (fetch_first_call self c).
Qed.

End ConnectorFacts.

(** ** Query text *)

Lemma chars_app (a b : string) : chars (a +:+ b) = chars a ++ chars b.
Proof.
  induction a as [|x a IH]; [done|].
  rewrite string_app_cons. unfold chars in *. simpl. by rewrite IH.
Qed.

Lemma chars_inj (a b : string) : chars a = chars b → a = b.
Proof.
  intros H. apply (f_equal String.string_of_list_ascii) in H.
  unfold chars in H. by rewrite !String.string_of_list_ascii_of_string in H.
Qed.

Lemma str_infix_chars (p s : string) :
  str_infix p s ↔ ∃ l r, chars s = l ++ chars p ++ r.
Proof.
  split.
  - intros (l & r & ->). exists (chars l), (chars r). by rewrite !chars_app.
  - intros (l & r & H).
    exists (String.string_of_list_ascii l), (String.string_of_list_ascii r).
    apply chars_inj. rewrite !chars_app, H. unfold chars.
    by rewrite !String.list_ascii_of_string_of_list_ascii.
Qed.

(** An occurrence of [p] cannot span a character that [p] does not have. *)
Lemma list_infix_split {A} (c : A) (p l r x y : list A) :
  c ∉ p → l ++ p ++ r = x ++ c :: y →
  (∃ l' r', x = l' ++ p ++ r') ∨ (∃ l' r', y = l' ++ p ++ r').
Proof.
  intros Hc H. apply app_eq_app in H as [k [[-> H]|[-> H]]].
  - destruct k as [|a k]; simpl in H.
    + destruct p as [|a p]; simpl in H.
      * left. exists x, []. by rewrite app_nil_r.
      * injection H as <- _. destruct Hc. by left.
    + injection H as _ ->. right. by exists k, r.
  - apply app_eq_app in H as [k' [[-> H]|[-> H]]].
    + destruct k' as [|a k']; simpl in H.
      * left. exists l, []. by rewrite !app_nil_r.
      * injection H as <- _. destruct Hc.
        rewrite elem_of_app. right. by left.
    + left. by exists l, k'.
Qed.

Lemma has_char_false (c : ascii) (p : string) :
  has_char c p = false → c ∉ chars p.
Proof.
  unfold has_char. intros H Hin.
  apply list_elem_of_In in Hin.
  assert (existsb (Ascii.eqb c) (chars p) = true); [|congruence].
  apply existsb_exists. exists c. split; [done|apply Ascii.eqb_refl].
Qed.

Lemma str_infix_split (c : ascii) (p x y : string) :
  has_char c p = false →
  str_infix p (x +:+ String c y) → str_infix p x ∨ str_infix p y.
Proof.
  intros Hc%has_char_false. rewrite !str_infix_chars.
  intros (l & r & H). rewrite chars_app in H.
  by apply (list_infix_split c (chars p) l r (chars x) (chars y)).
Qed.

Lemma prefixb_app (p r : string) : prefixb p (p +:+ r) = true.
Proof.
  induction p as [|a p IH]; [done|].
  rewrite string_app_cons. simpl. by rewrite Ascii.eqb_refl, IH.
Qed.

(** The test finds every occurrence. *)
Lemma infixb_complete (p s : string) : str_infix p s → infixb p s = true.
Proof.
  intros (l & r & ->). induction l as [|a l IH].
  - rewrite string_app_nil_l.
    destruct (p +:+ r) eqn:E; simpl; rewrite <- E, prefixb_app; done.
  - rewrite string_app_cons. simpl. rewrite IH. apply orb_true_r.
Qed.

Lemma iso_text_app (a b : string) :
  iso_text (a +:+ b) = iso_text a && iso_text b.
Proof. unfold iso_text. by rewrite chars_app, forallb_app. Qed.

Lemma iso_text_infix (p s : string) :
  str_infix p s → iso_text s = true → iso_text p = true.
Proof.
  intros (l & r & ->). rewrite !iso_text_app.
  by intros (_ & (? & _)%andb_prop)%andb_prop.
Qed.

Lemma iso_text_cons (c : ascii) (s : string) :
  iso_text (String c s) = existsb (Ascii.eqb c) iso_chars && iso_text s.
Proof. reflexivity. Qed.

Lemma iso_text_uint (d : Decimal.uint) :
  iso_text (NilEmpty.string_of_uint d) = true.
Proof.
  induction d; simpl; [done|..]; rewrite iso_text_cons, IHd; reflexivity.
Qed.

Lemma iso_text_str_int (n : Z) : iso_text (Py.str_int n) = true.
Proof.
  unfold Py.str_int, NilZero.string_of_int, NilZero.string_of_uint.
  destruct (Z.to_int n) as [d|d]; [|rewrite iso_text_cons; simpl];
    destruct d; first [done | apply (iso_text_uint (_ _))].
Qed.

Lemma iso_text_zfill (k : nat) (s : string) :
  iso_text s = true → iso_text (Py.zfill k s) = true.
Proof.
  intros Hs. induction k as [|k IH]; simpl; [done|].
  by rewrite iso_text_cons, IH.
Qed.

Lemma iso_text_fmt_d (width : nat) (n : Z) : iso_text (Py.fmt_d width n) = true.
Proof.
  unfold Py.fmt_d. destruct (n <? 0)%Z.
  - rewrite iso_text_cons. simpl.
    apply iso_text_zfill, iso_text_str_int.
  - apply iso_text_zfill, iso_text_str_int.
Qed.

Lemma iso_text_format_offset (off : Z) :
  iso_text (Py.format_offset off) = true.
Proof.
  unfold Py.format_offset.
  destruct (off <? 0)%Z; destruct (_ =? 0)%Z;
    repeat first [rewrite iso_text_app | rewrite iso_text_fmt_d]; reflexivity.
Qed.

(** [isoformat] produces digits and the separators of the format only. *)
Lemma iso_text_isoformat (d : Py.datetime) : iso_text (Py.isoformat d) = true.
Proof.
  unfold Py.isoformat.
  destruct (_ =? 0)%Z; destruct (Py.tzinfo d);
    repeat first [rewrite iso_text_app | rewrite iso_text_fmt_d
                 | rewrite iso_text_format_offset]; reflexivity.
Qed.

(** The marker has no quote, so an occurrence lies on one side of a quote. *)
Lemma upper_bound_marker_split (x y : string) :
  str_infix upper_bound_marker (x +:+ String "'" y) →
  str_infix upper_bound_marker x ∨ str_infix upper_bound_marker y.
Proof. by apply str_infix_split. Qed.

Lemma wiql_query_start_only (project : string) (start : Py.datetime) :
  wiql_query project (Some start) None =
    "SELECT [System.Id] FROM WorkItems WHERE [System.TeamProject]='"
      +:+ project +:+ "' AND [System.ChangedDate] >= '"
      +:+ Py.isoformat start +:+ "' ORDER BY [System.ChangedDate] ASC".
Proof. unfold wiql_query. by rewrite !string_app_assoc. Qed.

(** C7 (as amended).  With a start bound and no end bound the query text is
    the fixed text around the project name and the start timestamp, both
    inserted as they are.  It holds the project clause and the lower-bound
    clause and ends with the ordering clause, and the text of an upper bound
    on the changed date occurs in it only where the project name brings
    it. *)
Theorem start_only_query_text (project : string) (start : Py.datetime) :
  let q := wiql_query project (Some start) None in
  q = "SELECT [System.Id] FROM WorkItems WHERE [System.TeamProject]='"
        +:+ project +:+ "' AND [System.ChangedDate] >= '"
        +:+ Py.isoformat start +:+ "' ORDER BY [System.ChangedDate] ASC" ∧
  str_infix ("[System.TeamProject]='" +:+ project +:+ "'") q ∧
  str_infix ("[System.ChangedDate] >= '" +:+ Py.isoformat start +:+ "'") q ∧
  str_suffix " ORDER BY [System.ChangedDate] ASC" q ∧
  (¬ str_infix upper_bound_marker project →
   ¬ str_infix upper_bound_marker q).
Proof.
  cbv zeta. rewrite wiql_query_start_only.
  split; [reflexivity|]. split; [|split; [|split]].
  - exists "SELECT [System.Id] FROM WorkItems WHERE ",
      (" AND [System.ChangedDate] >= '" +:+ Py.isoformat start
         +:+ "' ORDER BY [System.ChangedDate] ASC").
    rewrite !string_app_assoc. reflexivity.
  - exists ("SELECT [System.Id] FROM WorkItems WHERE [System.TeamProject]='"
              +:+ project +:+ "' AND "),
      " ORDER BY [System.ChangedDate] ASC".
    rewrite !string_app_assoc. reflexivity.
  - exists ("SELECT [System.Id] FROM WorkItems WHERE [System.TeamProject]='"
              +:+ project +:+ "' AND [System.ChangedDate] >= '"
              +:+ Py.isoformat start +:+ "'").
    rewrite !string_app_assoc. reflexivity.
  - intros Hproject Hq.
    change (str_infix upper_bound_marker
      ("SELECT [System.Id] FROM WorkItems WHERE [System.TeamProject]="
       +:+ String "'" (project
       +:+ String "'" (" AND [System.ChangedDate] >= "
       +:+ String "'" (Py.isoformat start
       +:+ String "'" " ORDER BY [System.ChangedDate] ASC"))))) in Hq.
    apply upper_bound_marker_split in Hq as [Hq|Hq].
    { by apply infixb_complete in Hq. }
    apply upper_bound_marker_split in Hq as [Hq|Hq]; [done|].
    apply upper_bound_marker_split in Hq as [Hq|Hq].
    { by apply infixb_complete in Hq. }
    apply upper_bound_marker_split in Hq as [Hq|Hq].
    { apply iso_text_infix in Hq; [done|apply iso_text_isoformat]. }
    by apply infixb_complete in Hq.
Qed.

(** C7, the claim as worded, fails for a project name that carries query
    text: the name is inserted without escaping, so an upper-bound clause
    written into it is part of the query. *)
Lemma start_only_query_claim_crafted :
  str_infix upper_bound_marker
    (wiql_query Sample.crafted_project (Some Sample.noon) None) ∧
  ¬ start_only_query_claim Sample.crafted_project Sample.noon.
Proof.
  assert (str_infix upper_bound_marker
            (wiql_query Sample.crafted_project (Some Sample.noon) None)) as H.
  { exists "SELECT [System.Id] FROM WorkItems WHERE [System.TeamProject]='x' AND ",
      (" '2000-01-01' AND [System.ChangedDate] >= '2024-06-15T12:00:00'"
         +:+ " ORDER BY [System.ChangedDate] ASC").
    vm_compute. reflexivity. }
  split; [exact H|]. by intros (_ & _ & Hno & _).
Qed.

(** The amended statement at project ["Alpha"]: no upper-bound clause. *)
Lemma start_only_query_text_alpha :
  let q := wiql_query "Alpha" (Some Sample.noon) None in
  q = "SELECT [System.Id] FROM WorkItems WHERE [System.TeamProject]='Alpha'"
        +:+ " AND [System.ChangedDate] >= '2024-06-15T12:00:00'"
        +:+ " ORDER BY [System.ChangedDate] ASC" ∧
  ¬ str_infix upper_bound_marker q.
Proof.
  destruct (start_only_query_text "Alpha" Sample.noon) as (Hq & _ & _ & _ & Hno).
  split; [exact Hq|]. apply Hno.
  intros H. apply infixb_complete in H. vm_compute in H. discriminate H.
Defined.

(** ** Concrete runs *)

Example make_document_plain :
  fst (make_document Sample.no_parse Sample.clock (Sample.item 42) Sample.world0)
  = inr {| Models.doc_id := "42";
           Models.sections :=
             [ {| Models.link := None; Models.text := Py.Str "" |} ];
           Models.source := Models.AZURE_DEVOPS;
           Models.semantic_identifier := Py.Str "Work Item 42";
           Models.doc_updated_at :=
             Py.mk_datetime 2024 6 15 12 0 0 0 (Some 0%Z);
           Models.primary_owners := [];
           Models.metadata := {[ "state" := Py.None_ ]} |}.
Proof. reflexivity. Qed.

Example make_document_full :
  fst (make_document Sample.parse_midnight Sample.clock Sample.full_item
         Sample.world0)
  = inr {| Models.doc_id := "7";
           Models.sections :=
             [ {| Models.link :=
                    Some "https://dev.azure.com/org/_apis/wit/workItems/7";
                  Models.text := Py.Str "Login fails" |} ];
           Models.source := Models.AZURE_DEVOPS;
           Models.semantic_identifier := Py.Str "Fix login";
           Models.doc_updated_at :=
             Py.mk_datetime 2024 1 1 0 0 0 0 (Some 0%Z);
           Models.primary_owners := [ {| Models.display_name := Py.Str "Ada" |} ];
           Models.metadata := {[ "state" := Py.Str "Active" ]} |}.
Proof. vm_compute. reflexivity. Qed.

Example fetch_five_by_two :
  let r := load_from_state Sample.no_parse Sample.clock
             (Sample.connector (Some Sample.echo_client)) Sample.world0 in
  map (map Models.doc_id) (yielded r) = [["11"; "12"]; ["13"; "14"]; ["15"]] ∧
  raised r = None ∧
  calls (world r) =
    [ Sdk.QueryByWiql
        ("SELECT [System.Id] FROM WorkItems WHERE [System.TeamProject]='Alpha'"
           +:+ " ORDER BY [System.ChangedDate] ASC");
      Sdk.GetWorkItems [11; 12]%Z "Alpha" "Fields";
      Sdk.GetWorkItems [13; 14]%Z "Alpha" "Fields";
      Sdk.GetWorkItems [15]%Z "Alpha" "Fields" ].
Proof. vm_compute. repeat split. Qed.

Example fetch_zero_batch_size :
  raised (load_from_state Sample.no_parse Sample.clock
            {| organization := "org"; project := "Alpha"; batch_size := 0;
               client := Some Sample.echo_client |} Sample.world0)
  = Some ValueError.
Proof. vm_compute. reflexivity. Qed.

Example load_credentials_samples :
  let self := Sample.connector None in
  let missing := ConnectorMissingCredentialError "Azure DevOps PAT missing or invalid" in
  load_credentials Sample.connection self ∅ Sample.world0
    = (inl missing, self, Sample.world0) ∧
  load_credentials Sample.connection self {[ "azure_devops_pat" := Py.Int 5 ]}
      Sample.world0
    = (inl missing, self, Sample.world0) ∧
  load_credentials Sample.connection self {[ "azure_devops_pat" := Py.None_ ]}
      Sample.world0
    = (inl missing, self, Sample.world0) ∧
  load_credentials Sample.connection self {[ "azure_devops_pat" := Py.Str "t0ken" ]}
      Sample.world0
    = (inr Py.None_, Sample.connector (Some Sample.echo_client),
       {| calls := [Sdk.Connect "https://dev.azure.com/org" "" "t0ken"];
          clock_reads := 0 |}).
Proof. vm_compute. repeat split. Qed.

(** C2, the claim as worded, fails for a changed date that arrives as a
    [datetime]: the code keeps it, the wording has the clock reading. *)
Lemma updated_at_datetime_kept :
  ∃ doc w',
    make_document Sample.no_parse Sample.clock Sample.dated_item Sample.world0
      = (inr doc, w') ∧
    Models.doc_updated_at doc = Py.replace_tzinfo Sample.midnight Py.utc ∧
    Models.doc_updated_at doc ≠
      spec_updated_at Sample.no_parse (Sample.clock (clock_reads Sample.world0))
        (field_of Sample.dated_item "System.ChangedDate").
Proof.
  eexists _, _. split; [reflexivity|]. split; [reflexivity|].
  vm_compute. discriminate.
Qed.

(** C4 at a connector that has not loaded credentials. *)
Lemma fetch_requires_client_sample :
  let self := Sample.connector None in
  let r := poll_source Sample.no_parse Sample.clock self
             1700000000 1700003600 Sample.world0 in
  client self = None ∧
  raised r = Some (ConnectorMissingCredentialError "Azure DevOps") ∧
  yielded r = [] ∧ world r = Sample.world0.
Proof.
  cbv zeta. split; [reflexivity|].
  apply (fetch_requires_client Sample.no_parse Sample.clock
           (Sample.connector None) Sample.world0 eq_refl);
    vm_compute; eexists; reflexivity.
Defined.

(** C10 at the bundle that holds the empty token. *)
Lemma load_credentials_empty_token_sample :
  let credentials : gmap string Py.value := {[ "azure_devops_pat" := Py.Str "" ]} in
  credentials !! "azure_devops_pat" = Some (Py.Str "") ∧
  let '(outcome, self', w') :=
    load_credentials Sample.connection (Sample.connector None) credentials
      Sample.world0 in
  (∀ msg, outcome ≠ inl (ConnectorMissingCredentialError msg)) ∧
  calls w' = calls Sample.world0 ++ [Sdk.Connect "https://dev.azure.com/org" "" ""] ∧
  (∀ c, Sample.connection "https://dev.azure.com/org" "" "" = inr c →
        outcome = inr Py.None_ ∧ client self' = Some c).
Proof.
  cbv zeta. split; [reflexivity|].
  apply (load_credentials_empty_token Sample.connection (Sample.connector None)
           {[ "azure_devops_pat" := Py.Str "" ]} Sample.world0).
  reflexivity.
Defined.

(** C1 at five identifiers and batch size two, with a client that answers
    the three requests of the run and no other: three batches. *)
Lemma batches_cover_query_result_sample :
  let self := Sample.connector (Some Scenario.strict_client) in
  let r := _fetch_work_items Sample.no_parse Sample.clock self None None
             Sample.world0 in
  raised r = None ∧
  Z.of_nat (length (yielded r)) = ceil_div 5 2 ∧
  Forall (λ batch, batch ≠ []) (yielded r) ∧
  concat (map (map Models.doc_id) (yielded r))
    = map Py.str_int [11; 12; 13; 14; 15]%Z.
Proof.
  apply (batches_cover_query_result Sample.no_parse Sample.clock
           (Sample.connector (Some Scenario.strict_client)) Scenario.strict_client
           None None
           {| Sdk.work_items :=
                Some (map Sdk.Build_WorkItemReference [11; 12; 13; 14; 15]%Z) |}
           Sample.world0).
  - reflexivity.
  - simpl. lia.
  - reflexivity.
  - repeat (constructor; [eexists; split; reflexivity|]). constructor.
Defined.

(** * Further properties *)

(** ** The groups of identifiers *)

Section BatchSizes.

Context {A : Type}.
Variable ids : list A.
Variable size : Z.
Hypothesis size_pos : (0 < size)%Z.

Local Abbreviation len := (Z.of_nat (length ids)).
Local Abbreviation batch := (λ j : Z, Py.slice ids j (j + size)).

Lemma slice_batch_length (i : Z) :
  (0 ≤ i < len)%Z →
  Z.of_nat (length (Py.slice ids i (i + size))) = Z.min size (len - i).
Proof.
  intros Hi. rewrite slice_batch, length_take, length_drop by done. lia.
Qed.

Lemma range_from_nonempty (fuel : nat) (i : Z) :
  Py.range_from fuel i len size ≠ [] → (i < len)%Z.
Proof.
  destruct fuel as [|fuel]; simpl; [done|].
  destruct (Z.ltb_spec 0 size); [|lia].
  by destruct (Z.ltb_spec i len).
Qed.

(** Every batch holds between one and [size] identifiers, and only the last
    one can hold fewer than [size]. *)
Lemma range_from_sizes (fuel : nat) (i : Z) :
  (0 ≤ i)%Z →
  let bs := map batch (Py.range_from fuel i len size) in
  Forall (λ b, (0 < Z.of_nat (length b) ≤ size)%Z) bs ∧
  ∀ n b, bs !! n = Some b → S n < length bs → Z.of_nat (length b) = size.
Proof.
  revert i. induction fuel as [|fuel IH]; intros i Hi; simpl.
  { split; [constructor|]. intros n b Hn. by rewrite lookup_nil in Hn. }
  destruct (Z.ltb_spec 0 size); [|lia].
  destruct (Z.ltb_spec i len) as [Hlt|Hge]; simpl.
  - destruct (IH (i + size)%Z) as [Hall Hfull]; [lia|]. split.
    + constructor; [|exact Hall]. rewrite slice_batch_length by lia. lia.
    + intros [|n] b Hb Hn; simpl in *.
      * injection Hb as <-. rewrite slice_batch_length by lia.
        assert (i + size < len)%Z; [|lia].
        apply (range_from_nonempty fuel). intros Hnil.
        rewrite Hnil in Hn. simpl in Hn. lia.
      * apply (Hfull n b Hb). lia.
  - split; [constructor|]. intros n b Hn. by rewrite lookup_nil in Hn.
Qed.

End BatchSizes.

(** The groups, one after the other, are the identifiers again. *)
Lemma id_batches_concat (ids : list Z) (size : Z) :
  (0 < size)%Z →
  concat (id_batches ids size) = ids ∧
  Z.of_nat (length (id_batches ids size))
    = ceil_div (Z.of_nat (length ids)) size.
Proof.
  intros Hsize. unfold id_batches.
  destruct (range_batches ids size Hsize) as (starts & -> & Hcat & Hlen & _).
  split; [exact Hcat|]. by rewrite length_map.
Qed.

(** The sizes of the groups. *)
Lemma id_batches_sizes (ids : list Z) (size : Z) :
  (0 < size)%Z →
  Forall (λ b, b ≠ [] ∧ (Z.of_nat (length b) ≤ size)%Z) (id_batches ids size) ∧
  (∀ n b, id_batches ids size !! n = Some b →
          S n < length (id_batches ids size) →
          Z.of_nat (length b) = size).
Proof.
  intros Hsize. unfold id_batches, Py.range.
  destruct (Z.eqb_spec size 0); [lia|].
  match goal with |- context [Py.range_from ?fuel 0 ?n size] =>
    destruct (range_from_sizes ids size Hsize fuel 0 ltac:(lia)) as [Hall Hfull]
  end.
  split; [|exact Hfull].
  eapply Forall_impl; [exact Hall|]. intros b Hb. cbv beta in Hb.
  split; [|lia]. intros ->. simpl in Hb. lia.
Qed.

Lemma id_batches_nonpos (ids : list Z) (size : Z) :
  (size ≤ 0)%Z → id_batches ids size = [].
Proof.
  intros Hsize. unfold id_batches, Py.range.
  destruct (Z.eqb_spec size 0); [done|].
  destruct (Z.to_nat _) as [|fuel]; simpl; [done|].
  destruct (Z.ltb_spec 0 size); [lia|].
  by destruct (Z.ltb_spec (Z.of_nat (length ids)) 0); [lia|].
Qed.

(** X1.  For a positive batch size [B] the groups of identifiers the outer
    loop walks through are a partition of the query's identifiers into
    consecutive pieces: put one after the other they give the identifiers
    back, there are [ceil(N/B)] of them, each holds at least one and at most
    [B] identifiers, and every group but the last holds exactly [B]. *)
Theorem id_batches_partition (ids : list Z) (size : Z) :
  (0 < size)%Z →
  concat (id_batches ids size) = ids ∧
  Z.of_nat (length (id_batches ids size))
    = ceil_div (Z.of_nat (length ids)) size ∧
  Forall (λ b, b ≠ [] ∧ (Z.of_nat (length b) ≤ size)%Z) (id_batches ids size) ∧
  (∀ n b, id_batches ids size !! n = Some b →
          S n < length (id_batches ids size) →
          Z.of_nat (length b) = size).
Proof.
  intros Hsize.
  destruct (id_batches_concat ids size Hsize) as [Hcat Hlen].
  destruct (id_batches_sizes ids size Hsize) as [Hall Hfull].
  split; [exact Hcat|]. split; [exact Hlen|]. split; [exact Hall|].
  exact Hfull.
Qed.

(** X1 at five identifiers and batch size two. *)
Lemma id_batches_partition_sample :
  id_batches [11; 12; 13; 14; 15]%Z 2 = [[11; 12]; [13; 14]; [15]]%Z ∧
  concat (id_batches [11; 12; 13; 14; 15]%Z 2) = [11; 12; 13; 14; 15]%Z ∧
  Z.of_nat (length (id_batches [11; 12; 13; 14; 15]%Z 2)) = ceil_div 5 2.
Proof.
  split; [reflexivity|].
  destruct (id_batches_partition [11; 12; 13; 14; 15]%Z 2 ltac:(lia))
    as (Hcat & Hlen & _).
  split; [exact Hcat|exact Hlen].
Defined.

(** ** What the retrieval routine asks of the client *)

Lemma map_lookup {A B} (f : A → B) (l : list A) (i : nat) :
  map f l !! i = f <$> (l !! i).
Proof.
  revert i. induction l as [|x l IH]; intros [|i]; simpl; [done..|]. apply IH.
Qed.

Section ConnectorRuns.

Variable connection :
  string → string → string → Sdk.error + Sdk.WorkItemTrackingClient.
Variable fromisoformat : string → option Py.datetime.
Variable clock : nat → Py.datetime.

Local Abbreviation make_document := (make_document fromisoformat clock).
Local Abbreviation fetch_batches := (fetch_batches fromisoformat clock).
Local Abbreviation _fetch_work_items := (_fetch_work_items fromisoformat clock).
Local Abbreviation load_from_state := (load_from_state fromisoformat clock).
Local Abbreviation poll_source := (poll_source fromisoformat clock).
Local Abbreviation load_credentials := (load_credentials connection).

(** The outer loop asks for the batches in order, one call each, and stops
    at the first call that fails. *)
Lemma fetch_batches_requests (self : AzureDevopsConnector)
    (c : Sdk.WorkItemTrackingClient) (ids starts : list Z) (w : World) :
  let r := fetch_batches self c ids starts w in
  ∃ k, k ≤ length starts ∧
    calls (world r) = calls w ++
      map (λ j, item_request (project self)
                  (Py.slice ids j (j + batch_size self))) (take k starts) ∧
    length (yielded r) ≤ k ∧
    match raised r with
    | None => k = length starts
    | Some e =>
        ∃ n j se, k = S n ∧ starts !! n = Some j ∧
          Sdk.get_work_items c (Py.slice ids j (j + batch_size self))
            (project self) "Fields" = inl se ∧
          e = SdkError se ∧ length (yielded r) ≤ n
    end.
Proof.
  revert w. induction starts as [|i starts IH]; intros w.
  { exists 0. simpl. rewrite app_nil_r. by repeat split. }
  cbn [fetch_batches]. unfold bind, sdk_call.
  destruct (Sdk.get_work_items c _ _ _) as [se|items] eqn:Hget.
  { exists 1. cbn. repeat split; [lia|lia|].
    exists 0, i, se. by repeat split. }
  match goal with |- context [mapM _ items ?w1] =>
    destruct (mapM_make_document_run fromisoformat clock items w1)
      as (docs & w2 & -> & Hc & _ & _) end.
  cbn in Hc.
  destruct (IH w2) as (k & Hk & Hcalls & Hlen & Hraised). cbv zeta in *.
  set (rest := fetch_batches self c ids starts w2) in *.
  assert (∃ r, r = match docs with
                   | [] => rest
                   | _ :: _ => gen_yield docs rest
                   end ∧ world r = world rest ∧ raised r = raised rest ∧
               length (yielded r) ≤ S (length (yielded rest)))
    as (r & -> & Hw & Hr & Hy).
  { eexists. split; [reflexivity|]. destruct docs; cbn; repeat split; lia. }
  exists (S k). rewrite Hw, Hr. split; [cbn; lia|]. split.
  { rewrite Hcalls, Hc, <- app_assoc. reflexivity. }
  split; [lia|].
  destruct (raised rest) as [e|]; [|cbn; lia].
  destruct Hraised as (n & j & se' & -> & Hj & Hfail & -> & Hlt).
  exists (S n), j, se'. repeat split; try done. lia.
Qed.



(** ** Runs with a client that answers, and runs it cuts short *)

(** When the item fetch answers every group faithfully, the batches yielded
    are the groups, one document per identifier. *)
Lemma fetch_work_items_faithful (self : AzureDevopsConnector)
    (c : Sdk.WorkItemTrackingClient) (start end_ : option Py.datetime)
    (result : Sdk.WorkItemQueryResult) (w : World) :
  client self = Some c →
  (0 < batch_size self)%Z →
  Sdk.query_by_wiql c (wiql_query (project self) start end_) = inr result →
  Forall (answers_faithfully c (project self))
    (id_batches (result_ids result) (batch_size self)) →
  let r := _fetch_work_items self start end_ w in
  raised r = None ∧
  map (map Models.doc_id) (yielded r)
    = map (map Py.str_int) (id_batches (result_ids result) (batch_size self)).
Proof.
  intros Hc Hsize Hquery Hget. cbv zeta.
  unfold _fetch_work_items. unfold id_batches in Hget |- *.
  rewrite Hc. unfold sdk_call. rewrite Hquery.
  destruct (range_batches (result_ids result) (batch_size self) Hsize)
    as (starts & Hrange & _ & _ & Hne).
  rewrite Hrange in Hget |- *. rewrite Forall_map in Hget.
  match goal with |- context [fetch_batches self c ?ids starts ?w1] =>
    destruct (fetch_batches_faithful fromisoformat clock self c ids starts w1
                Hget Hne) as [Hraised Hyield] end.
  split; [exact Hraised|]. by rewrite Hyield, map_map.
Qed.

(** X3.  With a client that answers each request of the run, one per group
    of identifiers, with the items of that group, the batches are yielded as
    the groups of identifiers stand: the i-th
    batch holds the documents of the i-th group, so no batch has more than
    [B] documents and every batch but the last has exactly [B]. *)
Theorem yielded_batches_are_groups (self : AzureDevopsConnector)
    (c : Sdk.WorkItemTrackingClient) (start end_ : option Py.datetime)
    (result : Sdk.WorkItemQueryResult) (w : World) :
  client self = Some c →
  (0 < batch_size self)%Z →
  Sdk.query_by_wiql c (wiql_query (project self) start end_) = inr result →
  Forall (answers_faithfully c (project self))
    (id_batches (result_ids result) (batch_size self)) →
  let r := _fetch_work_items self start end_ w in
  map (map Models.doc_id) (yielded r)
    = map (map Py.str_int) (id_batches (result_ids result) (batch_size self)) ∧
  Forall (λ docs, (0 < Z.of_nat (length docs) ≤ batch_size self)%Z) (yielded r) ∧
  (∀ n docs, yielded r !! n = Some docs → S n < length (yielded r) →
             Z.of_nat (length docs) = batch_size self).
Proof.
  intros Hc Hsize Hquery Hget. cbv zeta.
  destruct (fetch_work_items_faithful self c start end_ result w
              Hc Hsize Hquery Hget) as [_ Hyield].
  destruct (id_batches_sizes (result_ids result) (batch_size self) Hsize)
    as (Hall & Hfull).
  split; [exact Hyield|].
  assert (∀ n docs, yielded (_fetch_work_items self start end_ w) !! n
                      = Some docs →
            ∃ b, id_batches (result_ids result) (batch_size self) !! n = Some b ∧
                 length docs = length b) as Hnth.
  { intros n docs Hn.
    apply (f_equal (λ l, l !! n)) in Hyield.
    rewrite !map_lookup, Hn in Hyield. simpl in Hyield.
    destruct (id_batches _ _ !! n) as [b|]; [|done].
    exists b. split; [done|]. injection Hyield as Hyield.
    apply (f_equal length) in Hyield. by rewrite !length_map in Hyield. }
  apply (f_equal length) in Hyield. rewrite !length_map in Hyield.
  split.
  - apply Forall_lookup. intros n docs Hn.
    destruct (Hnth n docs Hn) as (b & Hb & ->).
    rewrite Forall_lookup in Hall. destruct (Hall n b Hb) as [Hne Hle].
    split; [|exact Hle]. destruct b; [done|simpl; lia].
  - intros n docs Hn Hlast.
    destruct (Hnth n docs Hn) as (b & Hb & ->).
    apply (Hfull n b Hb). by rewrite <- Hyield.
Qed.

(** The outer loop at a request the client refuses: what came before has
    been yielded, nothing after is asked for. *)
Lemma fetch_batches_stops (self : AzureDevopsConnector)
    (c : Sdk.WorkItemTrackingClient) (ids before after : list Z) (j : Z)
    (se : Sdk.error) (w : World) :
  Forall (λ i, answers_faithfully c (project self)
                 (Py.slice ids i (i + batch_size self)) ∧
               Py.slice ids i (i + batch_size self) ≠ []) before →
  Sdk.get_work_items c (Py.slice ids j (j + batch_size self))
    (project self) "Fields" = inl se →
  let r := fetch_batches self c ids (before ++ j :: after) w in
  raised r = Some (SdkError se) ∧
  map (map Models.doc_id) (yielded r)
    = map (λ i, map Py.str_int (Py.slice ids i (i + batch_size self))) before ∧
  calls (world r) = calls w ++
    map (λ i, item_request (project self)
                (Py.slice ids i (i + batch_size self))) (before ++ [j]).
Proof.
  intros Hbefore Hfail. revert w.
  induction Hbefore as [|i before [(items & Hitems & Hids) Hne] _ IH];
    intros w; cbn [app fetch_batches]; unfold bind, sdk_call.
  - rewrite Hfail. by repeat split.
  - rewrite Hitems.
    match goal with |- context [mapM _ items ?w1] =>
      destruct (mapM_make_document_run fromisoformat clock items w1)
        as (docs & w2 & -> & Hc & Hdocs & _) end.
    rewrite <- (map_map Sdk.id Py.str_int), Hids in Hdocs.
    destruct (IH w2) as (Hraised & Hyield & Hcalls).
    destruct docs as [|doc docs].
    { destruct (Py.slice ids i (i + batch_size self)); [done|discriminate]. }
    cbn. split; [exact Hraised|]. split.
    + by rewrite <- Hdocs, Hyield.
    + rewrite Hcalls, Hc. cbn. by rewrite <- app_assoc.
Qed.

(** X4.  When the client refuses the request for one group after having
    answered the groups before it faithfully, the retrieval routine ends with
    the client's error, unchanged, after having yielded the batches of the
    groups before; the refused request is its last call, the groups after
    it are never asked for. *)
Theorem partial_results_before_failure (self : AzureDevopsConnector)
    (c : Sdk.WorkItemTrackingClient) (start end_ : option Py.datetime)
    (result : Sdk.WorkItemQueryResult) (before after : list (list Z))
    (refused : list Z) (se : Sdk.error) (w : World) :
  client self = Some c →
  Sdk.query_by_wiql c (wiql_query (project self) start end_) = inr result →
  id_batches (result_ids result) (batch_size self)
    = before ++ refused :: after →
  Forall (answers_faithfully c (project self)) before →
  Sdk.get_work_items c refused (project self) "Fields" = inl se →
  let r := _fetch_work_items self start end_ w in
  raised r = Some (SdkError se) ∧
  map (map Models.doc_id) (yielded r) = map (map Py.str_int) before ∧
  calls (world r) = calls w ++
    Sdk.QueryByWiql (wiql_query (project self) start end_)
      :: map (item_request (project self)) (before ++ [refused]).
Proof.
  intros Hc Hquery Hsplit Hbefore Hfail. cbv zeta.
  destruct (Z.le_gt_cases (batch_size self) 0) as [Hle|Hsize].
  { rewrite id_batches_nonpos in Hsplit by done. by destruct before. }
  destruct (id_batches_sizes (result_ids result) (batch_size self) Hsize)
    as (Hall & _).
  revert Hsplit Hall.
  unfold _fetch_work_items, id_batches. rewrite Hc. unfold sdk_call.
  rewrite Hquery.
  destruct (Py.range _ _ _) as [starts|]; [|by destruct before].
  intros Hsplit Hall.
  apply map_eq_app in Hsplit as (sbefore & srest & -> & Hsb & Hsr).
  apply map_eq_cons in Hsr as (j & safter & -> & Hj & _).
  subst before refused.
  rewrite map_app, Forall_app in Hall. destruct Hall as [Hall _].
  rewrite Forall_map in Hbefore. rewrite Forall_map in Hall.
  match goal with |- context [fetch_batches self c ?ids _ ?w1] =>
    destruct (fetch_batches_stops self c ids sbefore safter j se w1)
      as (Hraised & Hyield & Hcalls) end.
  { rewrite Forall_forall in Hbefore, Hall. apply Forall_forall.
    intros i Hi. split; [by apply Hbefore|by apply Hall]. }
  { exact Hfail. }
  split; [exact Hraised|]. split.
  - by rewrite Hyield, map_map.
  - rewrite Hcalls. cbn. rewrite <- app_assoc. cbn.
    by rewrite !map_app, map_map.
Qed.

(** ** Runs that fetch nothing *)

(** X5.  When the query itself fails, the retrieval routine ends with the
    client's error, unchanged: nothing is yielded and the query is the only
    call, no item is asked for. *)
Theorem query_failure_propagates (self : AzureDevopsConnector)
    (c : Sdk.WorkItemTrackingClient) (start end_ : option Py.datetime)
    (se : Sdk.error) (w : World) :
  client self = Some c →
  Sdk.query_by_wiql c (wiql_query (project self) start end_) = inl se →
  _fetch_work_items self start end_ w =
    {| yielded := []; raised := Some (SdkError se);
       world := {| calls := calls w ++
                     [Sdk.QueryByWiql (wiql_query (project self) start end_)];
                   clock_reads := clock_reads w |} |}.
Proof.
  intros Hc Hquery. unfold _fetch_work_items, sdk_call.
  by rewrite Hc, Hquery.
Qed.

(** X6.  When the query matches nothing, be it an empty list of references
    or none at all, and the batch size is not zero, the retrieval routine
    ends without exception, yields nothing and makes no call but the
    query. *)
Theorem empty_result_ends_quietly (self : AzureDevopsConnector)
    (c : Sdk.WorkItemTrackingClient) (start end_ : option Py.datetime)
    (result : Sdk.WorkItemQueryResult) (w : World) :
  client self = Some c →
  Sdk.query_by_wiql c (wiql_query (project self) start end_) = inr result →
  Sdk.work_items result = None ∨ Sdk.work_items result = Some [] →
  batch_size self ≠ 0%Z →
  _fetch_work_items self start end_ w =
    {| yielded := []; raised := None;
       world := {| calls := calls w ++
                     [Sdk.QueryByWiql (wiql_query (project self) start end_)];
                   clock_reads := clock_reads w |} |}.
Proof.
  intros Hc Hquery Hempty Hsize. unfold _fetch_work_items, sdk_call.
  rewrite Hc, Hquery.
  assert (result_ids result = []) as ->.
  { unfold result_ids. by destruct Hempty as [-> | ->]. }
  unfold Py.range. by destruct (Z.eqb_spec (batch_size self) 0).
Qed.

(** X7.  A batch size that is not positive.  With batch size zero the
    retrieval routine raises [ValueError], and does so only after the query
    has been executed, whatever the query returned.  With a negative batch
    size it ends without exception and yields nothing, however many
    identifiers the query returned; no item is asked for in either case. *)
Theorem nonpositive_batch_size (self : AzureDevopsConnector)
    (c : Sdk.WorkItemTrackingClient) (start end_ : option Py.datetime)
    (result : Sdk.WorkItemQueryResult) (w : World) :
  client self = Some c →
  Sdk.query_by_wiql c (wiql_query (project self) start end_) = inr result →
  let after_query :=
    {| calls := calls w ++
         [Sdk.QueryByWiql (wiql_query (project self) start end_)];
       clock_reads := clock_reads w |} in
  (batch_size self = 0%Z →
   _fetch_work_items self start end_ w =
     {| yielded := []; raised := Some ValueError; world := after_query |}) ∧
  ((batch_size self < 0)%Z →
   _fetch_work_items self start end_ w =
     {| yielded := []; raised := None; world := after_query |}).
Proof.
  intros Hc Hquery. cbv zeta. unfold _fetch_work_items, sdk_call.
  rewrite Hc, Hquery. split.
  - intros ->. reflexivity.
  - intros Hneg. unfold Py.range.
    destruct (Z.eqb_spec (batch_size self) 0); [lia|].
    destruct (Z.to_nat _) as [|fuel]; simpl; [done|].
    destruct (Z.ltb_spec 0 (batch_size self)); [lia|].
    by destruct (Z.ltb_spec (Z.of_nat (length (result_ids result))) 0); [lia|].
Qed.

(** ** Credentials and the life of a connector *)

(** With a client the retrieval routine never raises the missing-credential
    error. *)
Lemma fetch_with_client (self : AzureDevopsConnector)
    (c : Sdk.WorkItemTrackingClient) (start end_ : option Py.datetime)
    (w : World) (msg : string) :
  client self = Some c →
  raised (_fetch_work_items self start end_ w)
    ≠ Some (ConnectorMissingCredentialError msg).
Proof.
  intros Hc. unfold _fetch_work_items, sdk_call. rewrite Hc.
  destruct (Sdk.query_by_wiql c _) as [se|result]; [done|].
  destruct (Py.range _ _ _) as [starts|]; [|done].
  match goal with |- context [fetch_batches self c ?ids starts ?w1] =>
    destruct (fetch_batches_requests self c ids starts w1)
      as (k & _ & _ & _ & Hraised) end.
  destruct (raised _) as [e|]; [|done].
  by destruct Hraised as (n & j & se & _ & _ & _ & -> & _).
Qed.

(** X8.  The life of a connector.  A connector as constructed has no
    client, and retrieval on it raises the missing-credential error.  Once
    credentials with a string token have been loaded and the connection has
    returned a client, retrieval never raises that error again: its first
    call is the query, sent to the client the connection returned, right
    after the connection call. *)
Theorem connector_lifecycle (organization project : string) (batch_size : Z)
    (credentials : gmap string Py.value) (pat : string)
    (c : Sdk.WorkItemTrackingClient) (w : World) :
  credentials !! "azure_devops_pat" = Some (Py.Str pat) →
  connection ("https://dev.azure.com/" +:+ organization) "" pat = inr c →
  let fresh := __init__ organization project batch_size in
  (∀ start end_,
     raised (_fetch_work_items fresh start end_ w)
       = Some (ConnectorMissingCredentialError "Azure DevOps")) ∧
  let '(outcome, self, w') := load_credentials fresh credentials w in
  outcome = inr Py.None_ ∧ client self = Some c ∧
  ∀ start end_,
    let r := _fetch_work_items self start end_ w' in
    (∀ msg, raised r ≠ Some (ConnectorMissingCredentialError msg)) ∧
    ∃ rest,
      calls (world r) = calls w ++
        Sdk.Connect ("https://dev.azure.com/" +:+ organization) "" pat
          :: Sdk.QueryByWiql (wiql_query project start end_) :: rest.
Proof.
  intros Hpat Hconn. cbv zeta. split; [done|].
  rewrite (load_credentials_str connection _ _ _ _ Hpat). cbn.
  rewrite Hconn. split; [done|]. split; [done|].
  intros start end_. split.
  - intros msg. by apply (fetch_with_client _ c).
  - match goal with |- context [_fetch_work_items ?s start end_ ?w1] =>
      destruct (fetch_first_call fromisoformat clock s c start end_ w1 eq_refl)
        as [rest ->] end.
    exists rest. cbn. by rewrite <- app_assoc.
Qed.

(** X9.  Credential loading never changes the organization, the project or
    the batch size, never reads the clock, and makes at most one call, the
    connection to the organization's base URL with an empty user name.  When
    it fails, with the missing-credential error or with an error of the
    connection, which it passes on unchanged, the client handle is what it
    was before, a client loaded earlier included; when it succeeds the
    handle holds the client just returned. *)
Theorem load_credentials_effects (self : AzureDevopsConnector)
    (credentials : gmap string Py.value) (w : World) :
  let '(outcome, self', w') := load_credentials self credentials w in
  organization self' = organization self ∧ project self' = project self ∧
  batch_size self' = batch_size self ∧ clock_reads w' = clock_reads w ∧
  (calls w' = calls w ∨
   ∃ pat, calls w' = calls w ++
            [Sdk.Connect ("https://dev.azure.com/" +:+ organization self) "" pat]) ∧
  (∀ e, outcome = inl e →
     self' = self ∧
     (e = ConnectorMissingCredentialError "Azure DevOps PAT missing or invalid" ∨
      ∃ pat se,
        connection ("https://dev.azure.com/" +:+ organization self) "" pat
          = inl se ∧ e = SdkError se)) ∧
  (∀ v, outcome = inr v →
     v = Py.None_ ∧
     ∃ pat c,
       connection ("https://dev.azure.com/" +:+ organization self) "" pat
         = inr c ∧ client self' = Some c).
Proof.
  unfold load_credentials, Py.dict_get, sdk_call.
  assert (∀ w0 : World,
    organization self = organization self ∧ project self = project self ∧
    batch_size self = batch_size self ∧ clock_reads w0 = clock_reads w0 ∧
    (calls w0 = calls w0 ∨
     ∃ pat, calls w0 = calls w0 ++
       [Sdk.Connect ("https://dev.azure.com/" +:+ organization self) "" pat]) ∧
    (∀ e, inl (ConnectorMissingCredentialError
                 "Azure DevOps PAT missing or invalid")
            = (inl e : exn + Py.value) →
       self = self ∧
       (e = ConnectorMissingCredentialError "Azure DevOps PAT missing or invalid" ∨
        ∃ pat se,
          connection ("https://dev.azure.com/" +:+ organization self) "" pat
            = inl se ∧ e = SdkError se)) ∧
    (∀ v, inl (ConnectorMissingCredentialError
                 "Azure DevOps PAT missing or invalid")
            = (inr v : exn + Py.value) →
       v = Py.None_ ∧
       ∃ pat c,
         connection ("https://dev.azure.com/" +:+ organization self) "" pat
           = inr c ∧ client self = Some c)) as Hmissing.
  { intros w0. do 4 (split; [done|]). split; [by left|]. split.
    - intros e [= <-]. split; [done|by left].
    - intros v [=]. }
  destruct (credentials !! "azure_devops_pat") as [[| | |pat| | |]|];
    try apply Hmissing.
  destruct (connection _ _ pat) as [se|c] eqn:Hconn; cbn.
  - do 4 (split; [done|]). split; [right; by exists pat|]. split.
    + intros e [= <-]. split; [done|]. right. by exists pat, se.
    + intros v [=].
  - do 4 (split; [done|]). split; [right; by exists pat|]. split.
    + intros e [=].
    + intros v [= <-]. split; [done|]. by exists pat, c.
Qed.

(** ** Documents *)

(** X10.  The rest of a mapped document: its identifier is the decimal text
    of the item's id, its source is the Azure DevOps tag, it has exactly one
    section, whose link is the item's URL and whose text is the value of the
    description field (the empty string when the item has no such field),
    and its metadata have the one key ["state"], bound to the value of the
    state field ([None] when the item has no such field). *)
Theorem document_section_and_metadata (item : Sdk.WorkItem) (w : World) :
  ∃ doc w',
    make_document item w = (inr doc, w') ∧
    Models.doc_id doc = Py.str_int (Sdk.id item) ∧
    Models.source doc = Models.AZURE_DEVOPS ∧
    Models.sections doc =
      [ {| Models.link := Sdk.url item;
           Models.text :=
             match field_of item "System.Description" with
             | Some description => description
             | None => Py.Str ""
             end |} ] ∧
    Models.metadata doc =
      {[ "state" := match field_of item "System.State" with
                    | Some state => state
                    | None => Py.None_
                    end ]} ∧
    dom (Models.metadata doc) = {[ "state" ]}.
Proof.
  unfold make_document, bind.
  destruct (updated_at_of_run fromisoformat clock
              (fields_or_empty (Sdk.fields item)) w) as (w' & -> & _).
  eexists _, w'. split; [reflexivity|]. cbn.
  unfold Py.dict_get_default, Py.dict_get.
  rewrite !fields_or_empty_lookup.
  do 4 (split; [reflexivity|]). apply dom_singleton_L.
Qed.

(** [str] of an [int] tells the integers apart. *)
Lemma str_int_inj (n m : Z) : Py.str_int n = Py.str_int m → n = m.
Proof.
  unfold Py.str_int. intros H.
  apply DecimalZ.to_int_inj.
  assert (∀ z, NilZero.int_of_string (NilZero.string_of_int (Z.to_int z))
               = Some (Z.to_int z)) as Hisi.
  { intros z. apply NilZero.isi; destruct z; simpl; try discriminate;
      intros [= Hnil]; by apply DecimalPos.Unsigned.to_uint_nonnil in Hnil. }
  pose proof (Hisi n) as Hn. rewrite H, Hisi in Hn. by injection Hn.
Qed.

(** X11.  Document identifiers do not collide: two items are mapped to
    documents with the same identifier only if they have the same id,
    whatever their fields and whenever they are mapped.  Hence, with a client
    that answers each request of the run with the items of the group asked
    for, the documents of a run have pairwise different identifiers whenever
    the identifiers the query returned are pairwise different. *)
Theorem document_ids_distinct :
  (∀ item1 item2 w1 w2 doc1 doc2 w1' w2',
     make_document item1 w1 = (inr doc1, w1') →
     make_document item2 w2 = (inr doc2, w2') →
     Models.doc_id doc1 = Models.doc_id doc2 → Sdk.id item1 = Sdk.id item2) ∧
  (∀ self c start end_ result w,
     client self = Some c →
     (0 < batch_size self)%Z →
     Sdk.query_by_wiql c (wiql_query (project self) start end_) = inr result →
     Forall (answers_faithfully c (project self))
       (id_batches (result_ids result) (batch_size self)) →
     NoDup (result_ids result) →
     NoDup (concat (map (map Models.doc_id)
                      (yielded (_fetch_work_items self start end_ w))))).
Proof.
  split.
  - intros item1 item2 w1 w2 doc1 doc2 w1' w2' H1 H2 Heq.
    destruct (make_document_run fromisoformat clock item1 w1)
      as (d1 & ? & Hd1 & _ & Hid1 & _).
    destruct (make_document_run fromisoformat clock item2 w2)
      as (d2 & ? & Hd2 & _ & Hid2 & _).
    rewrite H1 in Hd1. rewrite H2 in Hd2.
    injection Hd1 as <- _. injection Hd2 as <- _.
    apply str_int_inj. by rewrite <- Hid1, <- Hid2.
  - intros self c start end_ result w Hc Hsize Hquery Hget Hnodup.
    destruct (fetch_work_items_faithful self c start end_ result w
                Hc Hsize Hquery Hget) as [_ ->].
    destruct (id_batches_concat (result_ids result) (batch_size self) Hsize)
      as (Hcat & _).
    rewrite <- concat_map, Hcat.
    change (NoDup (Py.str_int <$> result_ids result)).
    apply NoDup_fmap_2; [|exact Hnodup].
    intros n m. apply str_int_inj.
Qed.

(** Characters stripped at the end do not matter to [rstrip]. *)
Lemma rstrip_only_char (c : ascii) (s zs : string) :
  only_char c zs = true → Py.rstrip c (s +:+ zs) = Py.rstrip c s.
Proof.
  intros Hzs. induction s as [|a s IH].
  - rewrite string_app_nil_l. simpl.
    induction zs as [|z zs IHz]; [done|]. simpl in *.
    apply andb_prop in Hzs as [Hz Hzs]. by rewrite (IHz Hzs), Hz.
  - rewrite string_app_cons. simpl. by rewrite IH.
Qed.

(** What [rstrip] returns does not end with the stripped character. *)
Lemma rstrip_no_suffix (c : ascii) (s t : string) :
  Py.rstrip c s ≠ t +:+ String c "".
Proof.
  revert t. induction s as [|a s IH]; intros t; simpl.
  - destruct t; rewrite ?string_app_cons, ?string_app_nil_l; discriminate.
  - destruct (Py.rstrip c s) as [|b r] eqn:Hr.
    + destruct (Ascii.eqb_spec a c) as [->|Hne].
      * destruct t; rewrite ?string_app_cons, ?string_app_nil_l; discriminate.
      * destruct t as [|x t]; rewrite ?string_app_cons, ?string_app_nil_l.
        { congruence. }
        destruct t; rewrite ?string_app_cons, ?string_app_nil_l; discriminate.
    + destruct t as [|x t]; rewrite ?string_app_cons, ?string_app_nil_l.
      { discriminate. }
      intros [= -> Hrest]. by apply (IH t).
Qed.

(** X12.  The zone suffix of a string changed date is ignored altogether:
    two items whose changed dates differ only by ["Z"] characters at the end,
    any number of them, hand the same text to the parser, and that text never
    ends with ["Z"].  So when the parser accepts the text, both items get the
    parsed timestamp with UTC attached, in whatever world each is mapped;
    when it refuses the text, each item gets the clock reading of its own
    mapping. *)
Theorem zone_suffix_is_ignored (item1 item2 : Sdk.WorkItem) (s zs : string) :
  field_of item1 "System.ChangedDate" = Some (Py.Str s) →
  field_of item2 "System.ChangedDate" = Some (Py.Str (s +:+ zs)) →
  only_char "Z" zs = true →
  Py.rstrip "Z" (s +:+ zs) = Py.rstrip "Z" s ∧
  (∀ t, Py.rstrip "Z" (s +:+ zs) ≠ t +:+ "Z") ∧
  ∀ w1 w2, ∃ doc1 doc2 w1' w2',
    make_document item1 w1 = (inr doc1, w1') ∧
    make_document item2 w2 = (inr doc2, w2') ∧
    match fromisoformat (Py.rstrip "Z" s) with
    | Some d =>
        Models.doc_updated_at doc1 = Py.replace_tzinfo d Py.utc ∧
        Models.doc_updated_at doc2 = Py.replace_tzinfo d Py.utc
    | None =>
        Models.doc_updated_at doc1
          = Py.replace_tzinfo (clock (clock_reads w1)) Py.utc ∧
        Models.doc_updated_at doc2
          = Py.replace_tzinfo (clock (clock_reads w2)) Py.utc
    end.
Proof.
  intros H1 H2 Hzs.
  split; [by apply rstrip_only_char|].
  split; [intros t; apply rstrip_no_suffix|].
  intros w1 w2.
  destruct (make_document_run fromisoformat clock item1 w1)
    as (doc1 & w1' & Hd1 & _ & _ & _ & Hup1 & _).
  destruct (make_document_run fromisoformat clock item2 w2)
    as (doc2 & w2' & Hd2 & _ & _ & _ & Hup2 & _).
  exists doc1, doc2, w1', w2'. split; [exact Hd1|]. split; [exact Hd2|].
  rewrite Hup1, Hup2, H1, H2. unfold chosen_updated_at.
  rewrite rstrip_only_char by done.
  by destruct (fromisoformat (Py.rstrip "Z" s)).
Qed.

(** ** Polls *)

Lemma fromtimestamp_utc_aware (t : Z) (d : Py.datetime) :
  Py.fromtimestamp_utc t = Some d →
  Py.tzinfo d = Some Py.utc ∧ Py.microsecond d = 0%Z.
Proof.
  unfold Py.fromtimestamp_utc. destruct (Py.civil_from_days _) as [[y m] dd].
  destruct (_ && _); [|done]. by intros [= <-].
Qed.

Lemma isoformat_utc_suffix (d : Py.datetime) :
  Py.tzinfo d = Some Py.utc → str_suffix "+00:00" (Py.isoformat d).
Proof.
  intros Htz. unfold Py.isoformat. rewrite Htz.
  eexists. rewrite <- !string_app_assoc. reflexivity.
Qed.

(** X13.  A poll on a connector with a client, with bounds that are whole
    seconds and convert to timestamps: the first call is the query with both
    bounds, in whatever order they stand and the epoch itself included, the
    lower bound with [>=], then the upper bound with [<=], each written as a
    UTC timestamp that ends with [+00:00]. *)
Theorem poll_bounds_always_present (self : AzureDevopsConnector)
    (c : Sdk.WorkItemTrackingClient) (start end_ : Z)
    (start_dt end_dt : Py.datetime) (w : World) :
  client self = Some c →
  Py.fromtimestamp_utc start = Some start_dt →
  Py.fromtimestamp_utc end_ = Some end_dt →
  str_suffix "+00:00" (Py.isoformat start_dt) ∧
  str_suffix "+00:00" (Py.isoformat end_dt) ∧
  ∃ rest,
    calls (world (poll_source self start end_ w)) = calls w ++
      Sdk.QueryByWiql
        ("SELECT [System.Id] FROM WorkItems WHERE [System.TeamProject]='"
           +:+ project self
           +:+ "' AND [System.ChangedDate] >= '" +:+ Py.isoformat start_dt
           +:+ "' AND [System.ChangedDate] <= '" +:+ Py.isoformat end_dt
           +:+ "' ORDER BY [System.ChangedDate] ASC")
        :: rest.
Proof.
  intros Hc Hs He. unfold poll_source. rewrite Hs, He.
  apply fromtimestamp_utc_aware in Hs as [Hs _].
  apply fromtimestamp_utc_aware in He as [He _].
  split; [by apply isoformat_utc_suffix|].
  split; [by apply isoformat_utc_suffix|].
  destruct (fetch_first_call fromisoformat clock self c (Some start_dt)
              (Some end_dt) w Hc) as [rest ->].
  exists rest. unfold wiql_query. by rewrite !string_app_assoc.
Qed.

(** ** Documents follow the client's answers *)

Lemma fetch_batches_mirror (self : AzureDevopsConnector)
    (c : Sdk.WorkItemTrackingClient) (ids starts : list Z) (w : World) :
  Forall (λ j, ∃ items,
            Sdk.get_work_items c (Py.slice ids j (j + batch_size self))
              (project self) "Fields" = inr items) starts →
  let r := fetch_batches self c ids starts w in
  raised r = None ∧
  map (map Models.doc_id) (yielded r)
    = filter nonempty
        (map (λ j, returned_ids c (project self)
                     (Py.slice ids j (j + batch_size self))) starts).
Proof.
  intros Hall. revert w.
  induction Hall as [|j starts [items Hitems] _ IH]; intros w; [done|].
  cbn [fetch_batches map filter]. unfold bind, sdk_call, returned_ids at 1.
  rewrite Hitems.
  match goal with |- context [mapM _ items ?w1] =>
    destruct (mapM_make_document_run fromisoformat clock items w1)
      as (docs & w2 & -> & _ & Hdocs & _) end.
  destruct (IH w2) as [Hraised Hyield].
  rewrite <- Hdocs. destruct docs as [|doc docs]; cbn.
  - by split.
  - split; [exact Hraised|]. by rewrite Hyield.
Qed.

(** X14.  The documents follow what the client returns, not what was asked
    for.  When no request is refused, the run ends without exception and the
    batches yielded are, group by group and in order, the documents of the
    items the client returned for the group, one per returned item in the
    order returned; a group for which the client returns no item yields no
    batch and the run goes on with the next group. *)
Theorem documents_mirror_returned_items (self : AzureDevopsConnector)
    (c : Sdk.WorkItemTrackingClient) (start end_ : option Py.datetime)
    (result : Sdk.WorkItemQueryResult) (w : World) :
  client self = Some c →
  Sdk.query_by_wiql c (wiql_query (project self) start end_) = inr result →
  batch_size self ≠ 0%Z →
  Forall (λ b, ∃ items,
            Sdk.get_work_items c b (project self) "Fields" = inr items)
    (id_batches (result_ids result) (batch_size self)) →
  let r := _fetch_work_items self start end_ w in
  raised r = None ∧
  map (map Models.doc_id) (yielded r)
    = filter nonempty
        (map (returned_ids c (project self))
           (id_batches (result_ids result) (batch_size self))).
Proof.
  intros Hc Hquery Hsize. cbv zeta.
  unfold _fetch_work_items, id_batches. rewrite Hc. unfold sdk_call.
  rewrite Hquery.
  destruct (Py.range _ _ _) as [starts|] eqn:Hrange.
  - intros Hall. rewrite Forall_map in Hall. rewrite map_map.
    by apply fetch_batches_mirror.
  - unfold Py.range in Hrange. by destruct (Z.eqb_spec (batch_size self) 0).
Qed.

(** X15.  An item without fields, be the field mapping absent or empty, is
    mapped all the same, to the document made of the fallbacks: the label
    ["Work Item {id}"] as semantic identifier, an empty text, no owner, state
    [None], and the clock reading, read once, as update timestamp. *)
Theorem bare_item_document (item : Sdk.WorkItem) (w : World) :
  Sdk.fields item = None ∨ Sdk.fields item = Some ∅ →
  make_document item w =
    (inr {| Models.doc_id := Py.str_int (Sdk.id item);
            Models.sections :=
              [ {| Models.link := Sdk.url item; Models.text := Py.Str "" |} ];
            Models.source := Models.AZURE_DEVOPS;
            Models.semantic_identifier :=
              Py.Str ("Work Item " +:+ Py.str_int (Sdk.id item));
            Models.doc_updated_at :=
              Py.replace_tzinfo (clock (clock_reads w)) Py.utc;
            Models.primary_owners := [];
            Models.metadata := {[ "state" := Py.None_ ]} |},
     {| calls := calls w; clock_reads := S (clock_reads w) |}).
Proof.
  intros Hfields.
  assert (fields_or_empty (Sdk.fields item) = ∅) as Hempty.
  { by destruct Hfields as [-> | ->]. }
  unfold make_document. rewrite Hempty. reflexivity.
Qed.

End ConnectorRuns.

(** ** The clock *)

(** X16.  Mapping an item makes no call and reads the clock at most once,
    and exactly when the update timestamp has to come from it: a changed
    date that is a [datetime], or a string the parser accepts once the zone
    suffix is stripped, leaves the clock unread, and the document mapped
    from such an item is the same under every clock and in every world. *)
Theorem clock_read_only_as_fallback
    (fromisoformat : string → option Py.datetime) (clock : nat → Py.datetime)
    (item : Sdk.WorkItem) (w : World) :
  ∃ doc w',
    make_document fromisoformat clock item w = (inr doc, w') ∧
    calls w' = calls w ∧
    clock_reads w' =
      (if reads_clock fromisoformat (field_of item "System.ChangedDate")
       then S (clock_reads w) else clock_reads w) ∧
    (reads_clock fromisoformat (field_of item "System.ChangedDate") = false →
     ∀ clock2 w2,
       make_document fromisoformat clock2 item w2 = (inr doc, w2)).
Proof.
  unfold make_document, bind, updated_at_of, utcnow, ret, reads_clock,
    Py.dict_get.
  rewrite fields_or_empty_lookup.
  destruct (field_of item "System.ChangedDate") as [[| | |s| | |]|]; cbn;
    try (eexists _, _; repeat split; done).
  destruct (fromisoformat (Py.rstrip "Z" s)); cbn;
    eexists _, _; repeat split; done.
Qed.

(** ** The query of a full load *)

(** The marker has no quote, so an occurrence lies on one side of a quote. *)
Lemma lower_bound_marker_split (x y : string) :
  str_infix lower_bound_marker (x +:+ String "'" y) →
  str_infix lower_bound_marker x ∨ str_infix lower_bound_marker y.
Proof. by apply str_infix_split. Qed.

(** X17.  The query of a full load is the fixed text around the project
    name, inserted as it is, with no condition on the changed date: neither
    the text of a lower bound nor that of an upper bound occurs in it unless
    the project name brings it.  It is the first call of a full load on a
    connector with a client. *)
Theorem full_load_query_unfiltered
    (fromisoformat : string → option Py.datetime) (clock : nat → Py.datetime)
    (self : AzureDevopsConnector) (c : Sdk.WorkItemTrackingClient) (w : World) :
  client self = Some c →
  let q := "SELECT [System.Id] FROM WorkItems WHERE [System.TeamProject]='"
             +:+ project self +:+ "' ORDER BY [System.ChangedDate] ASC" in
  (∃ rest, calls (world (load_from_state fromisoformat clock self w))
           = calls w ++ Sdk.QueryByWiql q :: rest) ∧
  (¬ str_infix lower_bound_marker (project self) →
   ¬ str_infix lower_bound_marker q) ∧
  (¬ str_infix upper_bound_marker (project self) →
   ¬ str_infix upper_bound_marker q).
Proof.
  intros Hc. cbv zeta. split; [|split].
  - destruct (fetch_first_call fromisoformat clock self c None None w Hc)
      as [rest Hrest].
    exists rest. unfold load_from_state. rewrite Hrest.
    unfold wiql_query. by rewrite !string_app_assoc.
  - intros Hproject Hq.
    change (str_infix lower_bound_marker
      ("SELECT [System.Id] FROM WorkItems WHERE [System.TeamProject]="
       +:+ String "'" (project self
       +:+ String "'" " ORDER BY [System.ChangedDate] ASC"))) in Hq.
    apply lower_bound_marker_split in Hq as [Hq|Hq].
    { by apply infixb_complete in Hq. }
    apply lower_bound_marker_split in Hq as [Hq|Hq]; [done|].
    by apply infixb_complete in Hq.
  - intros Hproject Hq.
    change (str_infix upper_bound_marker
      ("SELECT [System.Id] FROM WorkItems WHERE [System.TeamProject]="
       +:+ String "'" (project self
       +:+ String "'" " ORDER BY [System.ChangedDate] ASC"))) in Hq.
    apply upper_bound_marker_split in Hq as [Hq|Hq].
    { by apply infixb_complete in Hq. }
    apply upper_bound_marker_split in Hq as [Hq|Hq]; [done|].
    by apply infixb_complete in Hq.
Qed.

(** ** The further properties at concrete inputs *)


Lemma echo_client_faithful (project : string) (b : list Z) :
  answers_faithfully Sample.echo_client project b.
Proof.
  exists (map Sample.item b). split; [reflexivity|].
  rewrite map_map. apply map_id.
Qed.

(** X3 at five identifiers and batch size two, with a client that answers
    the three requests of the run and no other. *)
Lemma yielded_batches_are_groups_sample :
  let r := _fetch_work_items Sample.no_parse Sample.clock
             (Sample.connector (Some Scenario.strict_client)) None None
             Sample.world0 in
  map (map Models.doc_id) (yielded r)
    = map (map Py.str_int) (id_batches [11; 12; 13; 14; 15]%Z 2) ∧
  Forall (λ docs, (0 < Z.of_nat (length docs) ≤ 2)%Z) (yielded r) ∧
  (∀ n docs, yielded r !! n = Some docs → S n < length (yielded r) →
             Z.of_nat (length docs) = 2%Z).
Proof.
  apply (yielded_batches_are_groups Sample.no_parse Sample.clock
           (Sample.connector (Some Scenario.strict_client))
           Scenario.strict_client None None Scenario.five_refs Sample.world0).
  - reflexivity.
  - simpl. lia.
  - reflexivity.
  - repeat (constructor; [eexists; split; reflexivity|]). constructor.
Defined.

(** X4 at a client that refuses the second of three batches. *)
Lemma partial_results_before_failure_sample :
  let r := _fetch_work_items Sample.no_parse Sample.clock
             (Sample.connector (Some Scenario.failing_client)) None None
             Sample.world0 in
  raised r = Some (SdkError "503 Service Unavailable") ∧
  map (map Models.doc_id) (yielded r) = map (map Py.str_int) [[11; 12]%Z] ∧
  calls (world r) = calls Sample.world0 ++
    Sdk.QueryByWiql (wiql_query "Alpha" None None)
      :: map (item_request "Alpha") ([[11; 12]%Z] ++ [[13; 14]%Z]).
Proof.
  apply (partial_results_before_failure Sample.no_parse Sample.clock
           (Sample.connector (Some Scenario.failing_client))
           Scenario.failing_client None None Scenario.five_refs
           [[11; 12]%Z] [[15]%Z] [13; 14]%Z "503 Service Unavailable"
           Sample.world0).
  - reflexivity.
  - reflexivity.
  - reflexivity.
  - repeat constructor. exists (map Sample.item [11; 12]%Z). by split.
  - reflexivity.
Defined.

(** X5 at a client whose query fails. *)
Lemma query_failure_propagates_sample :
  load_from_state Sample.no_parse Sample.clock
    (Sample.connector (Some Scenario.offline_client)) Sample.world0 =
  {| yielded := []; raised := Some (SdkError "connection refused");
     world := {| calls := [Sdk.QueryByWiql (wiql_query "Alpha" None None)];
                 clock_reads := 0 |} |}.
Proof.
  apply (query_failure_propagates Sample.no_parse Sample.clock
           (Sample.connector (Some Scenario.offline_client))
           Scenario.offline_client None None "connection refused"
           Sample.world0); reflexivity.
Defined.

(** X6 at a client whose query matches nothing. *)
Lemma empty_result_ends_quietly_sample :
  load_from_state Sample.no_parse Sample.clock
    (Sample.connector (Some Scenario.silent_client)) Sample.world0 =
  {| yielded := []; raised := None;
     world := {| calls := [Sdk.QueryByWiql (wiql_query "Alpha" None None)];
                 clock_reads := 0 |} |}.
Proof.
  apply (empty_result_ends_quietly Sample.no_parse Sample.clock
           (Sample.connector (Some Scenario.silent_client))
           Scenario.silent_client None None {| Sdk.work_items := None |}
           Sample.world0).
  - reflexivity.
  - reflexivity.
  - by left.
  - simpl. lia.
Defined.

(** X7 at batch sizes zero and minus three, five identifiers matched. *)
Lemma nonpositive_batch_size_sample :
  let after_query :=
    {| calls := [Sdk.QueryByWiql (wiql_query "Alpha" None None)];
       clock_reads := 0 |} in
  load_from_state Sample.no_parse Sample.clock (Scenario.sized_connector 0)
    Sample.world0
    = {| yielded := []; raised := Some ValueError; world := after_query |} ∧
  load_from_state Sample.no_parse Sample.clock (Scenario.sized_connector (-3))
    Sample.world0
    = {| yielded := []; raised := None; world := after_query |}.
Proof.
  cbv zeta. split.
  - apply (nonpositive_batch_size Sample.no_parse Sample.clock
             (Scenario.sized_connector 0) Sample.echo_client None None
             Scenario.five_refs Sample.world0 eq_refl eq_refl).
    reflexivity.
  - apply (nonpositive_batch_size Sample.no_parse Sample.clock
             (Scenario.sized_connector (-3)) Sample.echo_client None None
             Scenario.five_refs Sample.world0 eq_refl eq_refl).
    simpl. lia.
Defined.

(** X8 at a token bundle and the sample connection. *)
Lemma connector_lifecycle_sample :
  let fresh := __init__ "org" "Alpha" 2 in
  let credentials : gmap string Py.value :=
    {[ "azure_devops_pat" := Py.Str "t0ken" ]} in
  (∀ start end_,
     raised (_fetch_work_items Sample.no_parse Sample.clock fresh start end_
               Sample.world0)
       = Some (ConnectorMissingCredentialError "Azure DevOps")) ∧
  let '(outcome, self, w') :=
    load_credentials Sample.connection fresh credentials Sample.world0 in
  outcome = inr Py.None_ ∧ client self = Some Sample.echo_client ∧
  ∀ start end_,
    let r := _fetch_work_items Sample.no_parse Sample.clock self start end_ w' in
    (∀ msg, raised r ≠ Some (ConnectorMissingCredentialError msg)) ∧
    ∃ rest,
      calls (world r) = calls Sample.world0 ++
        Sdk.Connect ("https://dev.azure.com/" +:+ "org") "" "t0ken"
          :: Sdk.QueryByWiql (wiql_query "Alpha" start end_) :: rest.
Proof.
  apply (connector_lifecycle Sample.connection Sample.no_parse Sample.clock
           "org" "Alpha" 2 {[ "azure_devops_pat" := Py.Str "t0ken" ]} "t0ken"
           Sample.echo_client Sample.world0); reflexivity.
Defined.

(** X11 at five different identifiers. *)
Lemma document_ids_distinct_sample :
  NoDup (concat (map (map Models.doc_id)
           (yielded (_fetch_work_items Sample.no_parse Sample.clock
                       (Sample.connector (Some Sample.echo_client)) None None
                       Sample.world0)))).
Proof.
  apply (proj2 (document_ids_distinct Sample.no_parse Sample.clock)
           (Sample.connector (Some Sample.echo_client)) Sample.echo_client
           None None Scenario.five_refs Sample.world0).
  - reflexivity.
  - simpl. lia.
  - reflexivity.
  - apply Forall_forall. intros b _. apply echo_client_faithful.
  - change (NoDup [11; 12; 13; 14; 15]%Z).
    repeat (apply NoDup_cons_2;
      [rewrite ?elem_of_cons, elem_of_nil; intuition discriminate|]).
    apply NoDup_nil_2.
Defined.

(** X12 at a changed date with and without two zone suffix characters. *)
Lemma zone_suffix_is_ignored_sample :
  Py.rstrip "Z" ("2024-01-01T00:00:00" +:+ "ZZ")
    = Py.rstrip "Z" "2024-01-01T00:00:00" ∧
  (∀ t, Py.rstrip "Z" ("2024-01-01T00:00:00" +:+ "ZZ") ≠ t +:+ "Z") ∧
  ∀ w1 w2, ∃ doc1 doc2 w1' w2',
    make_document Sample.parse_midnight Sample.clock Scenario.plain_dated w1
      = (inr doc1, w1') ∧
    make_document Sample.parse_midnight Sample.clock Scenario.zulu_dated w2
      = (inr doc2, w2') ∧
    Models.doc_updated_at doc1 = Py.replace_tzinfo Sample.midnight Py.utc ∧
    Models.doc_updated_at doc2 = Py.replace_tzinfo Sample.midnight Py.utc.
Proof.
  apply (zone_suffix_is_ignored Sample.parse_midnight Sample.clock
           Scenario.plain_dated Scenario.zulu_dated
           "2024-01-01T00:00:00" "ZZ"); reflexivity.
Defined.

(** X13 at a poll from the epoch. *)
Lemma poll_bounds_always_present_sample :
  ∃ rest,
    calls (world (poll_source Sample.no_parse Sample.clock
                    (Sample.connector (Some Sample.echo_client)) 0 86400
                    Sample.world0)) =
      Sdk.QueryByWiql
        ("SELECT [System.Id] FROM WorkItems WHERE [System.TeamProject]='Alpha'"
           +:+ " AND [System.ChangedDate] >= '1970-01-01T00:00:00+00:00'"
           +:+ " AND [System.ChangedDate] <= '1970-01-02T00:00:00+00:00'"
           +:+ " ORDER BY [System.ChangedDate] ASC")
        :: rest.
Proof.
  destruct (poll_bounds_always_present Sample.no_parse Sample.clock
              (Sample.connector (Some Sample.echo_client)) Sample.echo_client
              0 86400
              (Py.mk_datetime 1970 1 1 0 0 0 0 (Some 0%Z))
              (Py.mk_datetime 1970 1 2 0 0 0 0 (Some 0%Z))
              Sample.world0 eq_refl eq_refl eq_refl)
    as (_ & _ & rest & Hrest).
  exists rest. exact Hrest.
Defined.

(** X17 at project ["Alpha"]. *)
Lemma full_load_query_unfiltered_sample :
  let q := "SELECT [System.Id] FROM WorkItems WHERE [System.TeamProject]='Alpha'"
             +:+ " ORDER BY [System.ChangedDate] ASC" in
  (∃ rest, calls (world (load_from_state Sample.no_parse Sample.clock
                           (Sample.connector (Some Sample.echo_client))
                           Sample.world0))
           = Sdk.QueryByWiql q :: rest) ∧
  ¬ str_infix lower_bound_marker q ∧ ¬ str_infix upper_bound_marker q.
Proof.
  destruct (full_load_query_unfiltered Sample.no_parse Sample.clock
              (Sample.connector (Some Sample.echo_client)) Sample.echo_client
              Sample.world0 eq_refl) as (Hcall & Hlow & Hup).
  split; [exact Hcall|]. split.
  - apply Hlow. intros H. apply infixb_complete in H. discriminate H.
  - apply Hup. intros H. apply infixb_complete in H. discriminate H.
Defined.

(** X14 at a client that returns too much for the first batch and nothing
    for the second. *)
Lemma documents_mirror_returned_items_sample :
  let r := _fetch_work_items Sample.no_parse Sample.clock
             (Sample.connector (Some Scenario.erratic_client)) None None
             Sample.world0 in
  raised r = None ∧
  map (map Models.doc_id) (yielded r) = [["11"; "12"; "11"; "12"]; ["15"]].
Proof.
  apply (documents_mirror_returned_items Sample.no_parse Sample.clock
           (Sample.connector (Some Scenario.erratic_client))
           Scenario.erratic_client None None Scenario.five_refs Sample.world0).
  - reflexivity.
  - reflexivity.
  - simpl. lia.
  - repeat constructor; eexists; reflexivity.
Defined.

(** X15 at an item without a field mapping. *)
Lemma bare_item_document_sample :
  make_document Sample.no_parse Sample.clock (Sample.item 42) Sample.world0 =
    (inr {| Models.doc_id := "42";
            Models.sections :=
              [ {| Models.link := None; Models.text := Py.Str "" |} ];
            Models.source := Models.AZURE_DEVOPS;
            Models.semantic_identifier := Py.Str "Work Item 42";
            Models.doc_updated_at := Py.replace_tzinfo Sample.noon Py.utc;
            Models.primary_owners := [];
            Models.metadata := {[ "state" := Py.None_ ]} |},
     {| calls := []; clock_reads := 1 |}).
Proof.
  apply (bare_item_document Sample.no_parse Sample.clock (Sample.item 42)
           Sample.world0).
  by left.
Defined.
